(** * py-lexml-acervo: the SRU pagination client and the record extractor

    A shallow embedding of [search_acervo_api.py].

    - [LexmlAcervo] (class [LexmlAcervo]): the session object, with
      [query], [automatic_pagination], [parseError] and [loadIntoXml].
    - [XmlToJson] (class [XmlToJson]): the per-item callback [parseXml]
      and the driver [parseToJson].

    Conventions of the embedding.
    - Python [int] is [Z]; [str] is [string]; a value that may be [None]
      is an [option].
    - A call either returns a value or raises: [Outcome].
    - The mutable instance is passed explicitly ([self] in, [self] out).
      The outside world is a [World]: the URLs requested so far and the
      lines printed so far.  The remote service is a [Server]: a function
      from the requests seen so far and the current URL to a [Reply].
    - [requests.get], the UTF-8 decoding, the NFKD normalisation and
      [ET.fromstring] are external: a [Response] carries its status code
      and what [loadIntoXml] makes of its body.
    - [ElementTree.getiterator] is taken as in Python up to 3.8, where it
      is [list(self.iter())].
    - [automatic_pagination] keeps one frame per page, so it meets the
      interpreter's recursion limit: a [Stack] says how many frames are
      left and how many a call of [query] needs, and [RecursionError] is
      one of its outcomes.  Its recursion in Rocq is bounded by fuel, and
      running out of fuel is kept apart from every result the method can
      produce. *)

From Stdlib Require Import ZArith Lia Ascii String List.
From stdpp Require Import base strings list gmap pretty.
Import ListNotations.

Open Scope string_scope.
Open Scope Z_scope.

(** ** Python values and primitives *)

Inductive Exn :=
| RequestException   (* requests.get failed: no response at all *)
| XmlError           (* UnicodeDecodeError / ET.ParseError in loadIntoXml *)
| IndexError
| TypeError
| ValueError
| KeyError (key : string)
| RecursionError.

Inductive Outcome (A : Type) :=
| Returned (a : A)
| Raised (e : Exn).
Arguments Returned {A} a.
Arguments Raised {A} e.

(** [str(n)] for an int. *)
Definition str (n : Z) : string := pretty n.

(** [needle in hay] for two strings. *)
Fixpoint contains (needle hay : string) : bool :=
  String.prefix needle hay
  || match hay with
     | EmptyString => false
     | String _ rest => contains needle rest
     end.

(** [s.replace(" ", "%20")]: the pattern is one character long. *)
Fixpoint replace_space (s : string) : string :=
  match s with
  | EmptyString => EmptyString
  | String c rest =>
      if Ascii.eqb c " "%char then "%20" +:+ replace_space rest
      else String c (replace_space rest)
  end.

(** [l[i]] for a list and a non-negative literal index. *)
Definition getitem {A : Type} (l : list A) (i : nat) : Outcome A :=
  match nth_error l i with
  | Some x => Returned x
  | None => Raised IndexError
  end.

(** [f"{x}"] for a value that is a string or [None]. *)
Definition format (x : option string) : string :=
  match x with
  | Some s => s
  | None => "None"
  end.

(** *** [int(text)]

    ASCII reading of [int]: surrounding white space, an optional sign,
    decimal digits with single underscores between digits.  Text with
    characters outside ASCII is outside this model. *)

Definition is_space (c : ascii) : bool :=
  let n := nat_of_ascii c in
  ((9 <=? n)%nat && (n <=? 13)%nat) || ((28 <=? n)%nat && (n <=? 32)%nat).

Definition digit_of (c : ascii) : option Z :=
  let n := nat_of_ascii c in
  if ((48 <=? n)%nat && (n <=? 57)%nat) then Some (Z.of_nat n - 48) else None.

Fixpoint all_space (s : string) : bool :=
  match s with
  | EmptyString => true
  | String c rest => is_space c && all_space rest
  end.

Fixpoint lstrip (s : string) : string :=
  match s with
  | EmptyString => EmptyString
  | String c rest => if is_space c then lstrip rest else s
  end.

(** [after_digit] tells whether the previous character was a digit. *)
Fixpoint int_digits (acc : Z) (after_digit : bool) (s : string) : option Z :=
  match s with
  | EmptyString => if after_digit then Some acc else None
  | String c rest =>
      match digit_of c with
      | Some d => int_digits (10 * acc + d) true rest
      | None =>
          if after_digit && Ascii.eqb c "_"%char then int_digits acc false rest
          else if after_digit && all_space s then Some acc
          else None
      end
  end.

Definition int_of_str (s : string) : option Z :=
  match lstrip s with
  | String "-"%char rest => Z.opp <$> int_digits 0 false rest
  | String "+"%char rest => int_digits 0 false rest
  | t => int_digits 0 false t
  end.

(** [int(x)] where [x] is an element's [.text]: a string or [None]. *)
Definition int (x : option string) : Outcome Z :=
  match x with
  | None => Raised TypeError
  | Some s =>
      match int_of_str s with
      | Some n => Returned n
      | None => Raised ValueError
      end
  end.

(** ** XML trees ([xml.etree.ElementTree]) *)

#[warnings="-register-all"]
Inductive Element :=
| Elem (tag : string) (text : option string) (children : list Element).

Definition tag (e : Element) : string :=
  match e with Elem t _ _ => t end.

Definition text (e : Element) : option string :=
  match e with Elem _ x _ => x end.

(** [list(e)]: the child elements. *)
Definition children (e : Element) : list Element :=
  match e with Elem _ _ cs => cs end.

(** [tree.getiterator()]: every element, in document order. *)
Fixpoint getiterator (e : Element) : list Element :=
  match e with
  | Elem _ _ cs =>
      e :: (fix over (l : list Element) : list Element :=
              match l with
              | [] => []
              | c :: l' => (getiterator c ++ over l')%list
              end) cs
  end.

(** ** The outside world *)

(** What [requests.get] hands back, with [loadIntoXml]'s view of the body:
    [body] is the root element of the decoded, normalised and parsed
    content, or [None] when decoding or parsing raises. *)
Record Response := mkResponse {
  status_code : Z;
  body : option Element
}.

Inductive Reply :=
| Unreachable                 (* requests.get raises *)
| Answer (r : Response).

(** The service sees the requests made before and the URL asked now. *)
Definition Server := list string -> string -> Reply.

(** Lines written by [print]. *)
Inductive Notice :=
| AllConsumed (query_string : string)
| RequestFailed
| Line (s : string)
| NoResults (search_string : string)
| AllQueried
| Finished
| Returning (startRecord tracker : Z)
| Remaining (remain_objects : Z) (url : string).

Record World := mkWorld {
  requests : list string;
  stdout : list Notice
}.

Definition print (w : World) (n : Notice) : World :=
  {| requests := requests w; stdout := stdout w ++ [n] |}.

(** [requests.get(url)]: the request is recorded, the server answers. *)
Definition requests_get (srv : Server) (w : World) (url : string)
  : World * Outcome Response :=
  let w' := {| requests := requests w ++ [url]; stdout := stdout w |} in
  match srv (requests w) url with
  | Unreachable => (w', Raised RequestException)
  | Answer r => (w', Returned r)
  end.

(** [r.raise_for_status()] raises [HTTPError] on 4xx and 5xx. *)
Definition raises_for_status (r : Response) : bool :=
  (400 <=? status_code r) && (status_code r <? 600).

(** ** class LexmlAcervo *)

Record LexmlAcervo := mkLexmlAcervo {
  containerOfXmlFiles : list Element;
  query_string : string;
  overall_query_objects_tracker : Z;
  total_objects_of_query : option Z;
  completed_query : bool
}.

Definition BASE_URL : string :=
  "https://www.lexml.gov.br/busca/SRU?operation=searchRetrieve&version=1.1&query=".
Definition START_REC : string := "&startRecord=".
Definition MAXIMUM_REC : string := "&maximumRecords=".

(** [__init__] *)
Definition init (query_string : string) : LexmlAcervo :=
  {| containerOfXmlFiles := [];
     query_string := query_string;
     overall_query_objects_tracker := 0;
     total_objects_of_query := None;
     completed_query := false |}.

(** [__addToContainerOfXmlFiles] *)
Definition addToContainerOfXmlFiles (self : LexmlAcervo) (tree : Element)
  : LexmlAcervo :=
  {| containerOfXmlFiles := containerOfXmlFiles self ++ [tree];
     query_string := query_string self;
     overall_query_objects_tracker := overall_query_objects_tracker self;
     total_objects_of_query := total_objects_of_query self;
     completed_query := completed_query self |}.

Definition set_tracker (self : LexmlAcervo) (n : Z) : LexmlAcervo :=
  {| containerOfXmlFiles := containerOfXmlFiles self;
     query_string := query_string self;
     overall_query_objects_tracker := n;
     total_objects_of_query := total_objects_of_query self;
     completed_query := completed_query self |}.

Definition set_total (self : LexmlAcervo) (n : Z) : LexmlAcervo :=
  {| containerOfXmlFiles := containerOfXmlFiles self;
     query_string := query_string self;
     overall_query_objects_tracker := overall_query_objects_tracker self;
     total_objects_of_query := Some n;
     completed_query := completed_query self |}.

Definition set_completed (self : LexmlAcervo) : LexmlAcervo :=
  {| containerOfXmlFiles := containerOfXmlFiles self;
     query_string := query_string self;
     overall_query_objects_tracker := overall_query_objects_tracker self;
     total_objects_of_query := total_objects_of_query self;
     completed_query := true |}.

(** [not x] for [x] an int or [None]: both [None] and [0] are falsy. *)
Definition falsy (x : option Z) : bool :=
  match x with
  | None => true
  | Some n => n =? 0
  end.

(** [loadIntoXml] *)
Definition loadIntoXml (r : Response) : Outcome Element :=
  match body r with
  | Some root => Returned root
  | None => Raised XmlError
  end.

(** [parseError]: [None] is returned when the root is not a diagnostics
    element.  The tuple's first component is evaluated first; an
    [IndexError] raised inside the handler is not caught. *)
Definition parseError (tree : Element) : Outcome (option string) :=
  if contains "diagnostics" (tag tree) then
    match getitem (getiterator tree) 3 with
    | Raised e => Raised e
    | Returned third =>
        match getitem (getiterator tree) 4 with
        | Raised _ =>
            Returned (Some ("Messagem de Erro: " +:+ format (text third)))
        | Returned fourth =>
            Returned (Some ("Messagem de Erro: " +:+ format (text third)
                            +:+ ": " +:+ format (text fourth)))
        end
    end
  else Returned None.

(** [int(list(tree.getroot())[1].text)] *)
Definition numeroObjetos (tree : Element) : Outcome Z :=
  match getitem (children tree) 1 with
  | Raised e => Raised e
  | Returned second => int (text second)
  end.

Definition build_url (self : LexmlAcervo) (startRecord maximumRecordsPerPage : Z)
  : string :=
  String.concat ""
    [BASE_URL; replace_space (query_string self); START_REC; str startRecord;
     MAXIMUM_REC; str maximumRecordsPerPage].

(** What [query] hands back: Python's [None], or the triple. *)
Definition QueryResult : Type := option (Element * Z * Z).

(** The part of [query] after a diagnostics root was seen, the same in
    both branches: [parseError], [print], [return None]. *)
Definition report_diagnostics (w : World) (self : LexmlAcervo) (tree : Element)
  : World * LexmlAcervo * Outcome QueryResult :=
  match parseError tree with
  | Raised e => (w, self, Raised e)
  | Returned diagnosticoErro =>
      (print w (Line (format diagnosticoErro)), self, Returned None)
  end.

(** The [else] branch of [query] once the tree is known not to be a
    diagnostics document (lines 89 to 109). *)
Definition accept_page (w : World) (self : LexmlAcervo)
    (url search_string : string) (startRecord maximumRecordsPerPage : Z)
    (tree : Element)
  : World * LexmlAcervo * Outcome QueryResult :=
  match numeroObjetos tree with
  | Raised e => (w, self, Raised e)
  | Returned n =>
      let self :=
        if falsy (total_objects_of_query self) then set_total self n
        else self in
      let w := if n =? 0 then print w (NoResults search_string) else w in
      let self := addToContainerOfXmlFiles self tree in
      let self :=
        set_tracker self
          (overall_query_objects_tracker self + maximumRecordsPerPage) in
      let remain_objects := n - overall_query_objects_tracker self in
      let '(w, self) :=
        if overall_query_objects_tracker self >=? n
        then (print (print w AllQueried) Finished, set_completed self)
        else (w, self) in
      let w :=
        if negb (completed_query self)
        then print (print w (Returning startRecord
                                (overall_query_objects_tracker self)))
                   (Remaining remain_objects url)
        else w in
      let start_record_next_query := overall_query_objects_tracker self + 1 in
      (w, self,
       Returned (Some (tree, start_record_next_query, maximumRecordsPerPage)))
  end.

(** [query] *)
Definition query (srv : Server) (w : World) (self : LexmlAcervo)
    (startRecord maximumRecordsPerPage : Z)
  : World * LexmlAcervo * Outcome QueryResult :=
  let w :=
    if completed_query self then print w (AllConsumed (query_string self))
    else w in
  let search_string := replace_space (query_string self) in
  let url := build_url self startRecord maximumRecordsPerPage in
  match requests_get srv w url with
  | (w, Raised e) => (w, self, Raised e)
  | (w, Returned r) =>
      if raises_for_status r then
        (* except requests.exceptions.HTTPError *)
        let w := print w RequestFailed in
        match loadIntoXml r with
        | Raised e => (w, self, Raised e)
        | Returned tree =>
            if contains "diagnostics" (tag tree)
            then report_diagnostics w self tree
            else (w, self, Returned None)   (* falls off the end *)
        end
      else
        match loadIntoXml r with
        | Raised e => (w, self, Raised e)
        | Returned tree =>
            if contains "diagnostics" (tag tree)
            then report_diagnostics w self tree
            else accept_page w self url search_string
                             startRecord maximumRecordsPerPage tree
        end
  end.

(** The interpreter's call stack where [automatic_pagination] meets it.
    [room] is the number of frames that can still be pushed on top of
    the frame of the [automatic_pagination] call at hand before the
    recursion limit is hit.  [query_frames] is the number of frames a
    call of [query] needs at its deepest point, its own frame included;
    that point is inside [requests.get], the first call of [query] that
    pushes frames, so a call that gets past it runs to its end, and one
    that does not has updated and printed nothing.  [sent_at_overflow]
    tells, for a given room, whether [requests.get] had sent the request
    when it ran out of frames. *)
Record Stack := mkStack {
  room : nat;
  query_frames : nat;
  sent_at_overflow : nat -> bool
}.

(** The stack one call further down. *)
Definition deeper (stack : Stack) (frames : nat) : Stack :=
  {| room := room stack - frames;
     query_frames := query_frames stack;
     sent_at_overflow := sent_at_overflow stack |}.

(** The world after a call of [query] that died of [RecursionError]. *)
Definition overflowed (stack : Stack) (w : World) (url : string) : World :=
  if sent_at_overflow stack (room stack)
  then {| requests := requests w ++ [url]; stdout := stdout w |}
  else w.

(** [automatic_pagination].  [None] is fuel exhaustion, never a result of
    the method.  A call of [query] that does not fit the stack raises
    [RecursionError], and so does the call of the method to itself,
    which is made after every page, also when the flag has just been
    set.  Unpacking [None] into three names raises [TypeError].  After
    the inner call returns, the [while] test is taken again with the
    rebound [startRecord] and [maximumRecordsPerPage]. *)
Fixpoint automatic_pagination (fuel : nat) (stack : Stack) (srv : Server)
    (w : World) (self : LexmlAcervo) (startRecord maximumRecordsPerPage : Z)
  : option (World * LexmlAcervo * Outcome unit) :=
  match fuel with
  | O => None
  | S fuel' =>
      if completed_query self then Some (w, self, Returned tt)
      else if (room stack <? query_frames stack)%nat then
        Some (overflowed stack w
                (build_url self startRecord maximumRecordsPerPage),
              self, Raised RecursionError)
      else
        match query srv w self startRecord maximumRecordsPerPage with
        | (w1, self1, Raised e) => Some (w1, self1, Raised e)
        | (w1, self1, Returned None) => Some (w1, self1, Raised TypeError)
        | (w1, self1, Returned (Some (_, startRecord', maximumRecordsPerPage'))) =>
            match room stack with
            | O => Some (w1, self1, Raised RecursionError)
            | S _ =>
                match automatic_pagination fuel' (deeper stack 1) srv w1 self1
                        startRecord' maximumRecordsPerPage' with
                | Some (w2, self2, Returned _) =>
                    automatic_pagination fuel' stack srv w2 self2
                      startRecord' maximumRecordsPerPage'
                | other => other
                end
            end
        end
  end.

(** ** class XmlToJson *)

(** A value [xmltodict] stores under a key: the text of a leaf, [None]
    for an empty leaf, or a nested dict or list, kept by its rendering. *)
Inductive Value :=
| Text (s : string)
| NoneValue
| Nested (rendering : string).

(** An item handed to the callback: a dict for an element with children,
    otherwise the leaf's text or [None]. *)
Inductive Item :=
| Dict (d : gmap string Value)
| Leaf (x : option string).

(** [document[key]] *)
Definition subscript (document : Item) (key : string) : Outcome Value :=
  match document with
  | Dict d =>
      match d !! key with
      | Some v => Returned v
      | None => Raised (KeyError key)
      end
  | Leaf _ => Raised TypeError
  end.

(** [f"{v}"] *)
Definition format_value (v : Value) : string :=
  match v with
  | Text s => s
  | NoneValue => "None"
  | Nested rendering => rendering
  end.

(** Sequencing of calls that may raise: the first exception wins. *)
#[global] Instance Outcome_bind : MBind Outcome :=
  fun A B (k : A -> Outcome B) (m : Outcome A) =>
    match m with
    | Returned a => k a
    | Raised e => Raised e
    end.

Record XmlToJson := mkXmlToJson {
  xml : list Item;       (* the depth-5 items xmltodict streams from self.xml *)
  container_of_json : list (gmap string Value)
}.

Module Extractor.

Definition BASE_URL : string := "https://www.lexml.gov.br/urn/".

(** The dict display of [__parseXml]: values are evaluated in source
    order, a later duplicate key overwrites the earlier one. *)
Definition build_data (document : Item) : Outcome (gmap string Value) :=
  tipoDocumento ← subscript document "tipoDocumento";
  facet_tipoDocumento ← subscript document "facet-tipoDocumento";
  data ← subscript document "dc:date";
  urn ← subscript document "urn";
  urn' ← subscript document "urn";
  localidade ← subscript document "localidade";
  facet_localidade ← subscript document "facet-localidade";
  autoridade ← subscript document "autoridade";
  facet_autoridade ← subscript document "facet-autoridade";
  facet_tipoDocumento' ← subscript document "facet-tipoDocumento";
  title ← subscript document "dc:title";
  description ← subscript document "dc:description";
  type ← subscript document "dc:type";
  identifier ← subscript document "dc:identifier";
  Returned
     (<["identifier" := identifier]>
      (<["type" := type]>
      (<["description" := description]>
      (<["title" := title]>
      (<["facet-tipoDocumento" := facet_tipoDocumento']>
      (<["facet-autoridade" := facet_autoridade]>
      (<["autoridade" := autoridade]>
      (<["facet-localidade" := facet_localidade]>
      (<["localidade" := localidade]>
      (<["url" := Text (BASE_URL +:+ format_value urn')]>
      (<["urn" := urn]>
      (<["data" := data]>
      (<["facet-tipoDocumento" := facet_tipoDocumento]>
      (<["tipoDocumento" := tipoDocumento]> ∅)))))))))))))).

(** [__parseXml(self, _, document)] *)
Definition parseXml (self : XmlToJson) (document : Item)
  : XmlToJson * Outcome bool :=
  match build_data document with
  | Raised e => (self, Raised e)
  | Returned data =>
      ({| xml := xml self;
          container_of_json := container_of_json self ++ [data] |},
       Returned true)
  end.

(** [xmltodict.parse(..., item_depth=5, item_callback=...)]: the
    callback runs on each item in turn; it always answers [True]. *)
Fixpoint stream (self : XmlToJson) (items : list Item)
  : XmlToJson * Outcome unit :=
  match items with
  | [] => (self, Returned tt)
  | document :: rest =>
      match parseXml self document with
      | (self', Returned _) => stream self' rest
      | (self', Raised e) => (self', Raised e)
      end
  end.

(** [parseToJson] *)
Definition parseToJson (self : XmlToJson)
  : XmlToJson * Outcome (list (gmap string Value)) :=
  match stream self (xml self) with
  | (self', Returned _) => (self', Returned (container_of_json self'))
  | (self', Raised e) => (self', Raised e)
  end.

End Extractor.

(** ** The caller's side: replies and fed-forward runs *)

(** A reply that [query] accepts as a result page reporting [n] records:
    no HTTP error status, a body that parses to [tree], a root that is not
    a diagnostics element, and a second child whose text reads as [n]. *)
Definition valid_page (rp : Reply) (tree : Element) (n : Z) : Prop :=
  exists r,
    rp = Answer r /\
    raises_for_status r = false /\
    body r = Some tree /\
    contains "diagnostics" (tag tree) = false /\
    numeroObjetos tree = Returned n.

(** The server reports the same total [T] whatever it is asked. *)
Definition stable_total (srv : Server) (T : Z) : Prop :=
  forall history url, exists tree, valid_page (srv history url) tree T.

(** A caller that calls [query] again and again, each time with the start
    offset and the page size the previous call returned, as long as a
    triple comes back. *)
Inductive Run :=
| Fed (w : World) (self : LexmlAcervo) (startRecord maximumRecordsPerPage : Z)
| Stopped (w : World) (self : LexmlAcervo) (o : Outcome QueryResult).

Fixpoint fetch_pages (calls : nat) (srv : Server) (w : World)
    (self : LexmlAcervo) (startRecord maximumRecordsPerPage : Z) : Run :=
  match calls with
  | O => Fed w self startRecord maximumRecordsPerPage
  | S calls' =>
      match query srv w self startRecord maximumRecordsPerPage with
      | (w1, self1, Returned (Some (_, startRecord', maximumRecordsPerPage'))) =>
          fetch_pages calls' srv w1 self1 startRecord' maximumRecordsPerPage'
      | (w1, self1, o) => Stopped w1 self1 o
      end
  end.

Definition session_of (r : Run) : LexmlAcervo :=
  match r with
  | Fed _ self _ _ => self
  | Stopped _ self _ => self
  end.

Definition world_of (r : Run) : World :=
  match r with
  | Fed w _ _ _ => w
  | Stopped w _ _ => w
  end.

Definition all_pages (r : Run) : bool :=
  match r with
  | Fed _ _ _ _ => true
  | Stopped _ _ _ => false
  end.

(** [completed] becomes true at call number [n] and not before: every one
    of the first [n] calls returns a triple, the flag is set after the
    [n]-th call and clear after each smaller number of calls. *)
Definition completes_after (srv : Server) (w : World) (self : LexmlAcervo)
    (startRecord maximumRecordsPerPage : Z) (n : nat) : Prop :=
  all_pages (fetch_pages n srv w self startRecord maximumRecordsPerPage) = true /\
  completed_query
    (session_of (fetch_pages n srv w self startRecord maximumRecordsPerPage))
    = true /\
  forall k, (k < n)%nat ->
    completed_query
      (session_of (fetch_pages k srv w self startRecord maximumRecordsPerPage))
      = false.

(** ceil(T/P) for P >= 1. *)
Definition ceil_div (T P : Z) : Z := (T + P - 1) / P.

(** The number of calls the code needs: ceil(T/P), and one call when
    there is nothing to fetch. *)
Definition calls_needed (T P : Z) : nat := Z.to_nat (Z.max 1 (ceil_div T P)).

(** A run at which [automatic_pagination] stops: the flag is set, or a
    call did not return a triple. *)
Definition halts (r : Run) : bool :=
  match r with
  | Fed _ self _ _ => completed_query self
  | Stopped _ _ _ => true
  end.

(** The exception the caller of [automatic_pagination] sees when a
    [query] call does not return a triple. *)
Definition surfaced (o : Outcome QueryResult) : Exn :=
  match o with
  | Raised e => e
  | Returned _ => TypeError
  end.

(** What [automatic_pagination] gives its caller at the end of a run. *)
Definition result_of (r : Run) : Outcome unit :=
  match r with
  | Fed _ _ _ _ => Returned tt
  | Stopped _ _ o => Raised (surfaced o)
  end.

(** The number of [query] calls that fit the stack, one frame further
    down each. *)
Definition calls_that_fit (stack : Stack) : nat :=
  S (room stack) - query_frames stack.

(** The world and session in which [automatic_pagination] ends when the
    stack runs out after [calls] pages: those of the run so far, with
    the next request sent or not. *)
Definition overflow_of (stack : Stack) (r : Run)
  : World * LexmlAcervo * Outcome unit :=
  match r with
  | Fed w self startRecord maximumRecordsPerPage =>
      (overflowed (deeper stack (calls_that_fit stack)) w
         (build_url self startRecord maximumRecordsPerPage),
       self, Raised RecursionError)
  | Stopped w self _ => (w, self, Raised RecursionError)
  end.

(** The world when [query] has printed its notice and sent its request. *)
Definition entered (w : World) (self : LexmlAcervo) (url : string) : World :=
  {| requests := requests w ++ [url];
     stdout :=
       if completed_query self
       then stdout w ++ [AllConsumed (query_string self)]
       else stdout w |}.

(** The session after an accepted page reporting [n] records. *)
Definition advanced (self : LexmlAcervo) (tree : Element) (n m : Z)
  : LexmlAcervo :=
  {| containerOfXmlFiles := containerOfXmlFiles self ++ [tree];
     query_string := query_string self;
     overall_query_objects_tracker := overall_query_objects_tracker self + m;
     total_objects_of_query :=
       if falsy (total_objects_of_query self) then Some n
       else total_objects_of_query self;
     completed_query :=
       completed_query self || (overall_query_objects_tracker self + m >=? n) |}.

(** ** Sample inputs *)

Module Samples.

Definition results_page (count : string) : Element :=
  Elem "{http://www.loc.gov/zing/srw/}searchRetrieveResponse" None
    [Elem "{http://www.loc.gov/zing/srw/}version" (Some "1.1") [];
     Elem "{http://www.loc.gov/zing/srw/}numberOfRecords" (Some count) [];
     Elem "{http://www.loc.gov/zing/srw/}records" None []].

Definition diagnostics_page : Element :=
  Elem "{http://www.loc.gov/zing/srw/}diagnostics" None
    [Elem "{http://www.loc.gov/zing/srw/diagnostic/}diagnostic" None
       [Elem "{http://www.loc.gov/zing/srw/diagnostic/}uri" (Some "info:srw/diagnostic/1/10") [];
        Elem "{http://www.loc.gov/zing/srw/diagnostic/}details" (Some "Query syntax error") [];
        Elem "{http://www.loc.gov/zing/srw/diagnostic/}message" (Some "unbalanced parentheses") []]].

Definition error_page : Element :=
  Elem "html" None [Elem "body" (Some "Service Unavailable") []].

(** Always a result page with the given count. *)
Definition steady (count : string) : Server :=
  fun _ _ => Answer (mkResponse 200 (Some (results_page count))).

(** Always the diagnostics document, with status 200. *)
Definition refusing : Server :=
  fun _ _ => Answer (mkResponse 200 (Some diagnostics_page)).

(** Always status 503 with a body that is not a diagnostics document. *)
Definition failing : Server :=
  fun _ _ => Answer (mkResponse 503 (Some error_page)).

(** Zero records on the first request, five on every later one. *)
Definition growing : Server :=
  fun history _ =>
    match history with
    | [] => Answer (mkResponse 200 (Some (results_page "0")))
    | _ => Answer (mkResponse 200 (Some (results_page "5")))
    end.

(** Result pages reporting 25 for the first two requests, then the
    diagnostics document. *)
Definition breaking : Server :=
  fun history _ =>
    if (length history <? 2)%nat
    then Answer (mkResponse 200 (Some (results_page "25")))
    else Answer (mkResponse 200 (Some diagnostics_page)).

Definition fresh : World := {| requests := []; stdout := [] |}.

(** A session that one page with zero records has completed. *)
Definition finished : LexmlAcervo :=
  {| containerOfXmlFiles := [results_page "0"];
     query_string := "date=1500";
     overall_query_objects_tracker := 10;
     total_objects_of_query := Some 0;
     completed_query := true |}.

Definition item : Item :=
  Dict (list_to_map
    [("tipoDocumento", Text "Lei");
     ("facet-tipoDocumento", Text "Lei");
     ("dc:date", Text "2019");
     ("urn", Text "urn:lex:br:federal:lei:2019");
     ("localidade", Text "Brasil");
     ("facet-localidade", Text "Brasil");
     ("autoridade", Text "Federal");
     ("facet-autoridade", Text "Federal");
     ("dc:title", Text "Lei de 2019");
     ("dc:description", NoneValue);
     ("dc:type", Text "html");
     ("dc:identifier", Text "000001")]).

End Samples.

(** ** Statement vocabulary *)

(** [w'] is [w] with more lines printed and the same requests. *)
Definition printed_more (w w' : World) : Prop :=
  requests w' = requests w /\ exists lines, stdout w' = (stdout w ++ lines)%list.



(** ** More sample inputs *)

(** A stack as the interpreter leaves it by default: a limit of 1000
    frames, ten of them in use, and thirty needed by a call of [query]. *)
Definition roomy : Stack :=
  {| room := 990; query_frames := 30; sent_at_overflow := fun _ => false |}.

(** A stack with room for two pages only. *)
Definition shallow : Stack :=
  {| room := 4; query_frames := 3; sent_at_overflow := fun _ => true |}.

(** 25 records on the first request, 5 on every later one. *)
Definition shrinking : Server :=
  fun history _ =>
    match history with
    | [] => Answer (mkResponse 200 (Some (Samples.results_page "25")))
    | _ => Answer (mkResponse 200 (Some (Samples.results_page "5")))
    end.

(** ** Vocabulary for the extractor *)

(** The keys [__parseXml] reads from an item, in the order in which the
    dict display first reads them. *)
Definition item_keys : list string :=
  ["tipoDocumento"; "facet-tipoDocumento"; "dc:date"; "urn"; "localidade";
   "facet-localidade"; "autoridade"; "facet-autoridade"; "dc:title";
   "dc:description"; "dc:type"; "dc:identifier"].

(** The keys of the record [__parseXml] builds. *)
Definition record_keys : list string :=
  ["tipoDocumento"; "facet-tipoDocumento"; "data"; "urn"; "url";
   "localidade"; "facet-localidade"; "autoridade"; "facet-autoridade";
   "title"; "description"; "type"; "identifier"].

(** The first of [item_keys] that a dict lacks. *)
Definition first_missing (d : gmap string Value) : option string :=
  find (fun key => match d !! key with Some _ => false | None => true end)
       item_keys.

(** The record [__parseXml] builds from [Samples.item]. *)
Definition sample_record : gmap string Value :=
  list_to_map
    [("tipoDocumento", Text "Lei");
     ("facet-tipoDocumento", Text "Lei");
     ("data", Text "2019");
     ("urn", Text "urn:lex:br:federal:lei:2019");
     ("url", Text "https://www.lexml.gov.br/urn/urn:lex:br:federal:lei:2019");
     ("localidade", Text "Brasil");
     ("facet-localidade", Text "Brasil");
     ("autoridade", Text "Federal");
     ("facet-autoridade", Text "Federal");
     ("title", Text "Lei de 2019");
     ("description", NoneValue);
     ("type", Text "html");
     ("identifier", Text "000001")].

(** An item without "urn" and without "dc:title". *)
Definition incomplete_item : Item :=
  Dict (list_to_map
    [("tipoDocumento", Text "Lei");
     ("facet-tipoDocumento", Text "Lei");
     ("dc:date", Text "2019");
     ("localidade", Text "Brasil");
     ("facet-localidade", Text "Brasil");
     ("autoridade", Text "Federal");
     ("facet-autoridade", Text "Federal");
     ("dc:description", NoneValue);
     ("dc:type", Text "html");
     ("dc:identifier", Text "000001")]).

(** ** [saveResults] and the file system *)

(** What the operating system can raise here.  [FileNotFoundError]
    carries its details (errno, file name) when the system raises it and
    none when the code raises [FileNotFoundError()] itself; [OSError]
    stands for every other kind (permission, not a directory, ...). *)
Inductive IOExn :=
| FileNotFoundError (details : option string)
| OSError (kind : string).

Inductive IOResult :=
| Done
| Failed (e : IOExn).

(** The file system as far as [saveResults] touches it: the directories
    it has made sure of, and the trees serialised to files.  A file is
    named by the directory as given to [Path] and the name joined to it;
    no normalisation of either is modelled. *)
Record Disk := mkDisk {
  directories : gset string;
  files : gmap (string * string) Element
}.

(** When the system refuses: [mkdir_fault] for [Path.mkdir], [write_fault]
    for opening the file in [ElementTree.write]. *)
Record System := mkSystem {
  mkdir_fault : Disk -> string -> option IOExn;
  write_fault : Disk -> string -> string -> option IOExn
}.

(** [path_to_save.mkdir(parents=True, exist_ok=True)] *)
Definition mkdir (os : System) (disk : Disk) (path : string)
  : Disk * IOResult :=
  match mkdir_fault os disk path with
  | Some e => (disk, Failed e)
  | None =>
      ({| directories := {[path]} ∪ directories disk; files := files disk |},
       Done)
  end.

(** [xmlfile.write(path_to_save / name, encoding="utf-8")] *)
Definition write (os : System) (disk : Disk) (path name : string)
    (xmlfile : Element) : Disk * IOResult :=
  match write_fault os disk path name with
  | Some e => (disk, Failed e)
  | None =>
      ({| directories := directories disk;
          files := <[(path, name) := xmlfile]> (files disk) |},
       Done)
  end.

(** [except FileNotFoundError: raise FileNotFoundError()]; any other
    exception passes. *)
Definition reraise (e : IOExn) : IOExn :=
  match e with
  | FileNotFoundError _ => FileNotFoundError None
  | OSError kind => OSError kind
  end.

(** [f"{index}_{filename}.xml"] *)
Definition aggName (index : nat) (filename : string) : string :=
  str (Z.of_nat index) +:+ "_" +:+ filename +:+ ".xml".

(** The [for] loop over [enumerate(self.containerOfXmlFiles)], from
    [index] on. *)
Fixpoint write_each (os : System) (disk : Disk) (path filename : string)
    (index : nat) (trees : list Element) : Disk * IOResult :=
  match trees with
  | [] => (disk, Done)
  | xmlfile :: rest =>
      match write os disk path (aggName index filename) xmlfile with
      | (disk', Done) => write_each os disk' path filename (S index) rest
      | (disk', Failed e) => (disk', Failed (reraise e))
      end
  end.

(** [saveResults] *)
Definition saveResults (os : System) (disk : Disk) (self : LexmlAcervo)
    (path filename : string) : Disk * IOResult :=
  match mkdir os disk path with
  | (disk', Failed e) => (disk', Failed (reraise e))
  | (disk', Done) =>
      write_each os disk' path filename 0 (containerOfXmlFiles self)
  end.

(** A system that never refuses, and one that has no room for a second
    file. *)
Definition willing : System :=
  {| mkdir_fault := fun _ _ => None; write_fault := fun _ _ _ => None |}.

Definition cramped : System :=
  {| mkdir_fault := fun _ _ => None;
     write_fault := fun disk _ _ =>
       if decide (files disk = ∅) then None
       else Some (FileNotFoundError (Some "No such file or directory")) |}.

(** A system that refuses to make the directory. *)
Definition locked : System :=
  {| mkdir_fault := fun _ _ =>
       Some (FileNotFoundError (Some "No such file or directory"));
     write_fault := fun _ _ _ => None |}.

(** A system on which writing is not permitted. *)
Definition readonly : System :=
  {| mkdir_fault := fun _ _ => None;
     write_fault := fun _ _ _ => Some (OSError "PermissionError") |}.

Definition blank : Disk := {| directories := ∅; files := ∅ |}.

(** A session holding two pages. *)
Definition two_pages : LexmlAcervo :=
  {| containerOfXmlFiles :=
       [Samples.results_page "25"; Samples.results_page "5"];
     query_string := "date=2019";
     overall_query_objects_tracker := 20;
     total_objects_of_query := Some 25;
     completed_query := false |}.

(** ** How [query] unfolds *)

Lemma printed_more_refl (w : World) : printed_more w w.
Proof. split; [reflexivity | exists []; symmetry; apply app_nil_r]. Qed.

Lemma printed_more_print (w w' : World) (n : Notice) :
  printed_more w w' -> printed_more w (print w' n).
Proof.
  intros [R [lines S]]. split; [exact R |].
  exists (lines ++ [n])%list. cbn. rewrite S. symmetry. apply app_assoc.
Qed.

Create HintDb world.
#[local] Hint Resolve printed_more_refl printed_more_print : world.

Section QueryFacts.

Variable srv : Server.
Variables (w : World) (self : LexmlAcervo).
Variables (startRecord maximumRecordsPerPage : Z).

#[local] Abbreviation url := (build_url self startRecord maximumRecordsPerPage).

(** [query] by the server's reply. *)
Lemma query_unfold :
  query srv w self startRecord maximumRecordsPerPage =
  match srv (requests w) url with
  | Unreachable => (entered w self url, self, Raised RequestException)
  | Answer r =>
      if raises_for_status r then
        match loadIntoXml r with
        | Raised e => (print (entered w self url) RequestFailed, self, Raised e)
        | Returned tree =>
            if contains "diagnostics" (tag tree)
            then report_diagnostics
                   (print (entered w self url) RequestFailed) self tree
            else (print (entered w self url) RequestFailed, self,
                  Returned None)
        end
      else
        match loadIntoXml r with
        | Raised e => (entered w self url, self, Raised e)
        | Returned tree =>
            if contains "diagnostics" (tag tree)
            then report_diagnostics (entered w self url) self tree
            else accept_page (entered w self url) self url
                   (replace_space (query_string self))
                   startRecord maximumRecordsPerPage tree
        end
  end.
Proof.
  unfold query, requests_get, entered.
  destruct (completed_query self); cbn [print requests stdout];
    destruct (srv (requests w) url); reflexivity.
Qed.

(** A diagnostics root leaves the session alone and gives no page. *)
Lemma report_diagnostics_spec (w0 : World) (tree : Element) :
  exists w' o,
    report_diagnostics w0 self tree = (w', self, o) /\
    printed_more w0 w' /\
    (o = Returned None \/ o = Raised IndexError).
Proof.
  unfold report_diagnostics, parseError, getitem.
  destruct (contains "diagnostics" (tag tree)).
  - destruct (nth_error (getiterator tree) 3).
    + destruct (nth_error (getiterator tree) 4); eauto 8 with world.
    + eauto 8 with world.
  - eauto 8 with world.
Qed.

(** An accepted page: what is returned and what the session becomes. *)
Lemma accept_page_spec (w0 : World) (u ss : string) (tree : Element) (n : Z) :
  numeroObjetos tree = Returned n ->
  exists w',
    accept_page w0 self u ss startRecord maximumRecordsPerPage tree =
      (w', advanced self tree n maximumRecordsPerPage,
       Returned (Some (tree,
                       overall_query_objects_tracker self
                         + maximumRecordsPerPage + 1,
                       maximumRecordsPerPage))) /\
    printed_more w0 w'.
Proof.
  intros Hn. unfold accept_page, advanced. rewrite Hn.
  destruct self as [c q t tot done]; cbn.
  destruct (falsy tot); cbn;
    destruct (n =? 0); cbn;
    destruct (t + maximumRecordsPerPage >=? n); cbn;
    destruct done; cbn; eexists; (split; [reflexivity|]);
    auto 6 with world.
Qed.

Lemma accept_page_raises (w0 : World) (u ss : string) (tree : Element) (e : Exn) :
  numeroObjetos tree = Raised e ->
  accept_page w0 self u ss startRecord maximumRecordsPerPage tree =
    (w0, self, Raised e).
Proof. intros Hn. unfold accept_page. now rewrite Hn. Qed.

Lemma entered_requests :
  requests (entered w self url) = (requests w ++ [url])%list.
Proof. reflexivity. Qed.

Lemma entered_stdout :
  exists lines, stdout (entered w self url) = (stdout w ++ lines)%list /\
    (completed_query self = true ->
     exists rest, lines = AllConsumed (query_string self) :: rest).
Proof.
  unfold entered; cbn. destruct (completed_query self).
  - eexists; split; [reflexivity | eauto].
  - exists []. split; [symmetry; apply app_nil_r | discriminate].
Qed.

(** Every call of [query]: the request is sent; then either the session
    is untouched and no page comes back, or the reply was a valid page
    and the session advanced by the requested page size. *)
Lemma query_cases :
  exists w' self' o,
    query srv w self startRecord maximumRecordsPerPage = (w', self', o) /\
    requests w' = (requests w ++ [url])%list /\
    (exists lines, stdout w' = (stdout w ++ lines)%list /\
       (completed_query self = true ->
        exists rest, lines = AllConsumed (query_string self) :: rest)) /\
    ((self' = self /\ forall page, o <> Returned (Some page)) \/
     (exists tree n,
        valid_page (srv (requests w) url) tree n /\
        self' = advanced self tree n maximumRecordsPerPage /\
        o = Returned (Some (tree,
                            overall_query_objects_tracker self
                              + maximumRecordsPerPage + 1,
                            maximumRecordsPerPage)))).
Proof.
  assert (ext : forall w', printed_more (entered w self url) w' ->
            requests w' = (requests w ++ [url])%list /\
            exists lines, stdout w' = (stdout w ++ lines)%list /\
              (completed_query self = true ->
               exists rest, lines = AllConsumed (query_string self) :: rest)).
  { intros w' [R [more S]]. split; [rewrite R; reflexivity |].
    destruct entered_stdout as (lines & E & C).
    exists (lines ++ more)%list. split.
    - rewrite S, E. symmetry. apply app_assoc.
    - intros Hc. destruct (C Hc) as [rest ->]. eexists. reflexivity. }
  assert (untouched : forall w' o,
            printed_more (entered w self url) w' ->
            (forall page, o <> Returned (Some page)) ->
            exists w'' self' o',
              (w', self, o) = (w'', self', o') /\
              requests w'' = (requests w ++ [url])%list /\
              (exists lines, stdout w'' = (stdout w ++ lines)%list /\
                 (completed_query self = true ->
                  exists rest, lines = AllConsumed (query_string self) :: rest)) /\
              ((self' = self /\ forall page, o' <> Returned (Some page)) \/
               (exists tree n,
                  valid_page (srv (requests w) url) tree n /\
                  self' = advanced self tree n maximumRecordsPerPage /\
                  o' = Returned (Some (tree,
                            overall_query_objects_tracker self
                              + maximumRecordsPerPage + 1,
                            maximumRecordsPerPage))))).
  { intros w' o P N. exists w', self, o. destruct (ext w' P) as [R S].
    split; [reflexivity|]. split; [exact R|]. split; [exact S|]. left. auto. }
  assert (diag : forall w0 tree,
            printed_more (entered w self url) w0 ->
            exists w' o, report_diagnostics w0 self tree = (w', self, o) /\
              printed_more (entered w self url) w' /\
              forall page, o <> Returned (Some page)).
  { intros w0 tree P.
    destruct (report_diagnostics_spec w0 tree) as (w' & o & E & [R [l S]] & D).
    exists w', o. split; [exact E|]. split.
    - destruct P as [R0 [l0 S0]]. split; [congruence|].
      exists (l0 ++ l)%list. rewrite S, S0. symmetry. apply app_assoc.
    - intros page. destruct D as [-> | ->]; discriminate. }
  rewrite query_unfold.
  destruct (srv (requests w) url) as [|r] eqn:Hr.
  { apply untouched; [auto with world | discriminate]. }
  destruct (raises_for_status r) eqn:Hst.
  - unfold loadIntoXml. destruct (body r) as [tree|] eqn:Hb.
    + destruct (contains "diagnostics" (tag tree)) eqn:Hd.
      * destruct (diag (print (entered w self url) RequestFailed) tree)
          as (w' & o & -> & P & N); [auto with world|].
        apply untouched; assumption.
      * apply untouched; [auto with world | discriminate].
    + apply untouched; [auto with world | discriminate].
  - unfold loadIntoXml. destruct (body r) as [tree|] eqn:Hb.
    + destruct (contains "diagnostics" (tag tree)) eqn:Hd.
      * destruct (diag (entered w self url) tree)
          as (w' & o & -> & P & N); [auto with world|].
        apply untouched; assumption.
      * destruct (numeroObjetos tree) as [n|e] eqn:Hn.
        -- destruct (accept_page_spec (entered w self url) url
                       (replace_space (query_string self)) tree n Hn)
             as (w' & -> & P).
           destruct (ext w' P) as [R S].
           eexists _, _, _. split; [reflexivity|].
           split; [exact R|]. split; [exact S|]. right.
           exists tree, n. split; [|split; reflexivity].
           exists r. auto.
        -- rewrite (accept_page_raises _ _ _ _ e Hn).
           apply untouched; [auto with world | discriminate].
    + apply untouched; [auto with world | discriminate].
Qed.

(** [query] on a valid page. *)
Lemma query_valid_page (tree : Element) (n : Z) :
  valid_page (srv (requests w) url) tree n ->
  exists w',
    query srv w self startRecord maximumRecordsPerPage =
      (w', advanced self tree n maximumRecordsPerPage,
       Returned (Some (tree,
                       overall_query_objects_tracker self
                         + maximumRecordsPerPage + 1,
                       maximumRecordsPerPage))) /\
    requests w' = (requests w ++ [url])%list.
Proof.
  intros (r & Hr & Hst & Hb & Hd & Hn).
  rewrite query_unfold, Hr, Hst. unfold loadIntoXml. rewrite Hb, Hd.
  destruct (accept_page_spec (entered w self url) url
              (replace_space (query_string self)) tree n Hn)
    as (w' & E & [R _]).
  exists w'. split; [exact E | rewrite R; reflexivity].
Qed.

End QueryFacts.

(** ** Diagnostics documents *)

(** C2.  When the reply's root tag contains "diagnostics", whatever the
    HTTP status, [query] hands back no page: it returns [None], or raises
    [IndexError] when the document has fewer than four elements.  The
    session object after the call is the one before it, so no page is
    appended and the tracker, the total and the completed flag keep
    their values. *)
Theorem diagnostics_reply_gives_no_page
    (srv : Server) (w : World) (self : LexmlAcervo)
    (startRecord maximumRecordsPerPage : Z) (r : Response) (tree : Element) :
  srv (requests w) (build_url self startRecord maximumRecordsPerPage) = Answer r ->
  body r = Some tree ->
  contains "diagnostics" (tag tree) = true ->
  exists w' o,
    query srv w self startRecord maximumRecordsPerPage = (w', self, o) /\
    (o = Returned None \/ o = Raised IndexError) /\
    (forall page, o <> Returned (Some page)).
Proof.
  intros Hr Hb Hd. rewrite query_unfold, Hr. unfold loadIntoXml.
  rewrite Hb, Hd.
  assert (K : forall w0, exists w' o,
             report_diagnostics w0 self tree = (w', self, o) /\
             (o = Returned None \/ o = Raised IndexError) /\
             (forall page, o <> Returned (Some page))).
  { intros w0.
    destruct (report_diagnostics_spec self w0 tree) as (w' & o & E & _ & D).
    exists w', o. split; [exact E|]. split; [exact D|].
    intros page. destruct D as [-> | ->]; discriminate. }
  destruct (raises_for_status r); apply K.
Qed.

Lemma diagnostics_reply_gives_no_page_witness :
  exists w' o,
    query Samples.refusing Samples.fresh (init "date=2019") 1 10
      = (w', init "date=2019", o) /\
    (o = Returned None \/ o = Raised IndexError) /\
    (forall page, o <> Returned (Some page)).
Proof.
  apply (diagnostics_reply_gives_no_page Samples.refusing Samples.fresh
           (init "date=2019") 1 10
           (mkResponse 200 (Some Samples.diagnostics_page))
           Samples.diagnostics_page); reflexivity.
Defined.

(** ** Accepted pages *)

(** C5.  On a valid result page the tracker grows by the page size that
    was asked for, whatever the page holds, and the call returns the
    tree, the new tracker plus one, and the page size. *)
Theorem accepted_page_advances_by_page_size
    (srv : Server) (w : World) (self : LexmlAcervo)
    (startRecord maximumRecordsPerPage : Z) (tree : Element) (n : Z) :
  valid_page
    (srv (requests w) (build_url self startRecord maximumRecordsPerPage))
    tree n ->
  exists w' self',
    query srv w self startRecord maximumRecordsPerPage =
      (w', self',
       Returned (Some (tree, overall_query_objects_tracker self' + 1,
                       maximumRecordsPerPage))) /\
    overall_query_objects_tracker self' =
      overall_query_objects_tracker self + maximumRecordsPerPage.
Proof.
  intros V.
  destruct (query_valid_page srv w self startRecord maximumRecordsPerPage
              tree n V) as (w' & E & _).
  exists w', (advanced self tree n maximumRecordsPerPage).
  split; [exact E | reflexivity].
Qed.

Lemma accepted_page_advances_by_page_size_witness :
  exists w' self',
    query (Samples.steady "25") Samples.fresh (init "date=2019") 1 10 =
      (w', self',
       Returned (Some (Samples.results_page "25",
                       overall_query_objects_tracker self' + 1, 10))) /\
    overall_query_objects_tracker self' = 0 + 10.
Proof.
  apply (accepted_page_advances_by_page_size (Samples.steady "25")
           Samples.fresh (init "date=2019") 1 10
           (Samples.results_page "25") 25).
  exists (mkResponse 200 (Some (Samples.results_page "25"))).
  repeat split; reflexivity.
Defined.

(** C7.  When the first reply of a session reports zero records and the
    page size is not negative, the first call sets the completed flag,
    and the page is stored all the same: the container holds exactly
    that one tree. *)
Theorem zero_results_complete_on_first_call
    (srv : Server) (w : World) (q : string)
    (startRecord maximumRecordsPerPage : Z) (tree : Element) :
  0 <= maximumRecordsPerPage ->
  valid_page
    (srv (requests w) (build_url (init q) startRecord maximumRecordsPerPage))
    tree 0 ->
  exists w' self' o,
    query srv w (init q) startRecord maximumRecordsPerPage = (w', self', o) /\
    completed_query self' = true /\
    total_objects_of_query self' = Some 0 /\
    containerOfXmlFiles self' = [tree] /\
    length (containerOfXmlFiles self') = 1%nat.
Proof.
  intros Hm V.
  destruct (query_valid_page srv w (init q) startRecord maximumRecordsPerPage
              tree 0 V) as (w' & E & _).
  eexists _, _, _. split; [exact E|]. cbn.
  repeat split. apply Z.geb_le. lia.
Qed.

Lemma zero_results_complete_on_first_call_witness :
  exists w' self' o,
    query (Samples.steady "0") Samples.fresh (init "date=1500") 1 10
      = (w', self', o) /\
    completed_query self' = true /\
    total_objects_of_query self' = Some 0 /\
    containerOfXmlFiles self' = [Samples.results_page "0"] /\
    length (containerOfXmlFiles self') = 1%nat.
Proof.
  apply (zero_results_complete_on_first_call (Samples.steady "0")
           Samples.fresh "date=1500" 1 10 (Samples.results_page "0")).
  - lia.
  - exists (mkResponse 200 (Some (Samples.results_page "0"))).
    repeat split; reflexivity.
Defined.

(** C8.  A call made when the completed flag is already set is carried
    out like any other (the request is sent, after one more printed
    line), and a valid page is stored.  With a page size that is not
    negative the tracker does not decrease, so it stays non-negative if
    it was, and the completed flag stays set. *)
Theorem query_after_completion
    (srv : Server) (w : World) (self : LexmlAcervo)
    (startRecord maximumRecordsPerPage : Z) :
  completed_query self = true ->
  0 <= maximumRecordsPerPage ->
  exists w' self' o,
    query srv w self startRecord maximumRecordsPerPage = (w', self', o) /\
    requests w' =
      (requests w ++ [build_url self startRecord maximumRecordsPerPage])%list /\
    (exists rest,
       stdout w' = (stdout w ++ AllConsumed (query_string self) :: rest)%list) /\
    completed_query self' = true /\
    overall_query_objects_tracker self <= overall_query_objects_tracker self' /\
    (0 <= overall_query_objects_tracker self ->
     0 <= overall_query_objects_tracker self') /\
    (forall tree n,
       valid_page
         (srv (requests w) (build_url self startRecord maximumRecordsPerPage))
         tree n ->
       containerOfXmlFiles self' = (containerOfXmlFiles self ++ [tree])%list /\
       exists next, o = Returned (Some (tree, next, maximumRecordsPerPage))).
Proof.
  intros Hc Hm.
  destruct (query_cases srv w self startRecord maximumRecordsPerPage)
    as (w' & self' & o & E & R & (lines & S & L) & D).
  exists w', self', o. split; [exact E|]. split; [exact R|].
  split. { destruct (L Hc) as [rest ->]. exists rest. exact S. }
  destruct D as [[-> N] | (tree & n & V & -> & ->)].
  - split; [exact Hc|]. split; [lia|]. split; [auto|].
    intros tree n V.
    destruct (query_valid_page srv w self startRecord maximumRecordsPerPage
                tree n V) as (w2 & E2 & _).
    rewrite E in E2. inversion E2; subst. exfalso. eapply N. reflexivity.
  - cbn. rewrite Hc. split; [reflexivity|]. split; [lia|]. split; [lia|].
    intros tree' n' V'.
    destruct (query_valid_page srv w self startRecord maximumRecordsPerPage
                tree' n' V') as (w2 & E2 & _).
    rewrite E in E2. inversion E2; subst. split; [reflexivity | eauto].
Qed.

Lemma query_after_completion_witness :
  exists w' self' o,
    query (Samples.steady "0") Samples.fresh Samples.finished 11 10
      = (w', self', o) /\
    requests w' =
      (requests Samples.fresh ++ [build_url Samples.finished 11 10])%list /\
    (exists rest,
       stdout w' =
         (stdout Samples.fresh
            ++ AllConsumed (query_string Samples.finished) :: rest)%list) /\
    completed_query self' = true /\
    overall_query_objects_tracker Samples.finished
      <= overall_query_objects_tracker self' /\
    (0 <= overall_query_objects_tracker Samples.finished ->
     0 <= overall_query_objects_tracker self') /\
    (forall tree n,
       valid_page
         (Samples.steady "0" (requests Samples.fresh)
            (build_url Samples.finished 11 10))
         tree n ->
       containerOfXmlFiles self' =
         (containerOfXmlFiles Samples.finished ++ [tree])%list /\
       exists next, o = Returned (Some (tree, next, 10))).
Proof.
  apply (query_after_completion (Samples.steady "0") Samples.fresh
           Samples.finished 11 10).
  - reflexivity.
  - lia.
Defined.

(** ** The stored total *)

(** A stored total other than zero survives every later call. *)
Lemma nonzero_total_is_kept
    (srv : Server) (w : World) (self : LexmlAcervo)
    (startRecord maximumRecordsPerPage t : Z) :
  total_objects_of_query self = Some t ->
  t <> 0 ->
  total_objects_of_query
    (snd (fst (query srv w self startRecord maximumRecordsPerPage))) = Some t.
Proof.
  intros Ht Hnz.
  destruct (query_cases srv w self startRecord maximumRecordsPerPage)
    as (w' & self' & o & -> & _ & _ & D). cbn.
  destruct D as [[-> _] | (tree & n & _ & -> & _)]; [exact Ht|].
  cbn. rewrite Ht. cbn. destruct (Z.eqb_spec t 0); [contradiction | reflexivity].
Qed.

(** C3.  The guard [if not self.__total_objects_of_query] takes a stored
    zero for "not set": after a first reply reporting 0 records the total
    is 0, and a second reply reporting 5 replaces it by 5. *)
Theorem zero_total_is_overwritten :
  total_objects_of_query
    (session_of (fetch_pages 1 Samples.growing Samples.fresh
                   (init "date=2019") 1 10)) = Some 0 /\
  total_objects_of_query
    (session_of (fetch_pages 2 Samples.growing Samples.fresh
                   (init "date=2019") 1 10)) = Some 5.
Proof. split; vm_compute; reflexivity. Qed.

(** ** HTTP errors *)




(** ** The extractor *)

(** C9.  Whenever the callback accepts an item, the record it appends
    has under "urn" the item's urn and under "url" the fixed base
    followed by that urn; for a urn that is text, the url is the base
    followed by the text. *)
Theorem url_is_base_plus_urn
    (self self' : XmlToJson) (document : Item) (b : bool) :
  Extractor.parseXml self document = (self', Returned b) ->
  exists data urn,
    container_of_json self' = (container_of_json self ++ [data])%list /\
    subscript document "urn" = Returned urn /\
    data !! "urn" = Some urn /\
    data !! "url" = Some (Text (Extractor.BASE_URL +:+ format_value urn)) /\
    (forall u, urn = Text u ->
       data !! "url" = Some (Text ("https://www.lexml.gov.br/urn/" +:+ u))).
Proof.
  unfold Extractor.parseXml, Extractor.build_data.
  destruct (subscript document "urn") as [urn|e] eqn:Hurn.
  2:{ repeat (match goal with
              | |- context [subscript document ?k] =>
                  destruct (subscript document k); cbn
              end); discriminate. }
  repeat (match goal with
          | |- context [subscript document ?k] =>
              destruct (subscript document k); cbn; try discriminate
          end).
  intros E. inversion E; subst; clear E. cbn.
  eexists _, urn. split; [reflexivity|]. split; [reflexivity|].
  split; [|split].
  - now simplify_map_eq.
  - now simplify_map_eq.
  - intros u ->. now simplify_map_eq.
Qed.

Lemma url_is_base_plus_urn_witness :
  exists data urn,
    container_of_json
      (fst (Extractor.parseXml (mkXmlToJson [Samples.item] []) Samples.item))
      = ([] ++ [data])%list /\
    subscript Samples.item "urn" = Returned urn /\
    data !! "urn" = Some urn /\
    data !! "url" = Some (Text (Extractor.BASE_URL +:+ format_value urn)) /\
    (forall u, urn = Text u ->
       data !! "url" = Some (Text ("https://www.lexml.gov.br/urn/" +:+ u))).
Proof.
  apply (url_is_base_plus_urn (mkXmlToJson [Samples.item] [])
           (fst (Extractor.parseXml (mkXmlToJson [Samples.item] []) Samples.item))
           Samples.item true).
  vm_compute. reflexivity.
Defined.

(** The spec's example: one item with urn "urn:lex:br:federal:lei:2019". *)
Example extraction_of_sample_item :
  exists data,
    snd (Extractor.parseToJson (mkXmlToJson [Samples.item] []))
      = Returned [data] /\
    data !! "url" =
      Some (Text "https://www.lexml.gov.br/urn/urn:lex:br:federal:lei:2019").
Proof. eexists. split; vm_compute; reflexivity. Qed.

(** ** Fed-forward runs against a stable total *)

Lemma geb_true_iff (x y : Z) : (x >=? y) = true <-> y <= x.
Proof. rewrite Z.geb_leb. apply Z.leb_le. Qed.

Lemma geb_false_iff (x y : Z) : (x >=? y) = false <-> x < y.
Proof. rewrite Z.geb_leb. apply Z.leb_gt. Qed.

(** After [k] calls against a server that always reports [T], with page
    size [P >= 0]: every call returned a triple, the tracker has grown by
    [k * P], and the flag is set if it was set before or if a call was
    made and the tracker has reached [T]. *)
Lemma fetch_pages_stable (srv : Server) (T P : Z) :
  0 <= P ->
  stable_total srv T ->
  forall (k : nat) (w : World) (self : LexmlAcervo) (a : Z),
  exists w' self' a',
    fetch_pages k srv w self a P = Fed w' self' a' P /\
    overall_query_objects_tracker self' =
      overall_query_objects_tracker self + Z.of_nat k * P /\
    length (containerOfXmlFiles self') =
      (length (containerOfXmlFiles self) + k)%nat /\
    completed_query self' =
      completed_query self
      || (negb (Nat.eqb k 0)
          && (overall_query_objects_tracker self + Z.of_nat k * P >=? T)).
Proof.
  intros HP Hst k. induction k as [|k IH]; intros w self a.
  - exists w, self, a. cbn. repeat split; try lia.
    now rewrite orb_false_r.
  - destruct (Hst (requests w) (build_url self a P)) as [tree V].
    destruct (query_valid_page srv w self a P tree T V) as (w1 & E & _).
    destruct (IH w1 (advanced self tree T P)
                (overall_query_objects_tracker self + P + 1))
      as (w' & self' & a' & F & Tr & Len & Co).
    exists w', self', a'. cbn [fetch_pages]. rewrite E.
    split; [exact F|].
    cbn [advanced overall_query_objects_tracker containerOfXmlFiles
         completed_query] in Tr, Len, Co.
    assert (KP : 0 <= Z.of_nat k * P) by (apply Z.mul_nonneg_nonneg; lia).
    rewrite Nat2Z.inj_succ. split; [lia|]. split.
    { rewrite Len, length_app. cbn [length]. lia. }
    rewrite Co. cbn [Nat.eqb negb andb].
    destruct (completed_query self); cbn [orb]; [reflexivity|].
    destruct (overall_query_objects_tracker self + P >=? T) eqn:G1; cbn [orb].
    + symmetry. apply geb_true_iff. apply geb_true_iff in G1. lia.
    + destruct k; cbn [Nat.eqb negb andb].
      * symmetry. apply geb_false_iff. apply geb_false_iff in G1. lia.
      * f_equal. lia.
Qed.

Lemma ceil_div_bounds (T P : Z) :
  0 <= T -> 1 <= P ->
  T <= ceil_div T P * P /\ (ceil_div T P - 1) * P < T.
Proof.
  intros HT HP. unfold ceil_div.
  pose proof (Z.div_mod (T + P - 1) P ltac:(lia)) as D.
  pose proof (Z.mod_pos_bound (T + P - 1) P ltac:(lia)) as B.
  nia.
Qed.

(** C1, as stated, fails for a query without results: ceil(0/1) is 0,
    and after no call at all the flag is still clear. *)
Lemma zero_total_needs_one_call :
  ~ completes_after (Samples.steady "0") Samples.fresh (init "date=1500")
      1 1 (Z.to_nat (ceil_div 0 1)).
Proof. intros (_ & H & _). vm_compute in H. discriminate H. Qed.

(** C1, amended.  Against a server that always reports [T >= 0] records,
    with page size [P >= 1], a new session is completed after exactly
    [max 1 (ceil (T / P))] calls: that many calls return a page, the
    flag is set after the last and clear after every smaller number of
    calls.  The tracker is then [calls * P], which is at least [T].  For
    [T >= 1] the number of calls is ceil(T/P); for [T = 0] it is one. *)
Theorem calls_until_completed
    (srv : Server) (w : World) (q : string) (startRecord T P : Z) :
  0 <= T ->
  1 <= P ->
  stable_total srv T ->
  completes_after srv w (init q) startRecord P (calls_needed T P) /\
  overall_query_objects_tracker
    (session_of (fetch_pages (calls_needed T P) srv w (init q) startRecord P))
    = Z.of_nat (calls_needed T P) * P /\
  T <= overall_query_objects_tracker
         (session_of (fetch_pages (calls_needed T P) srv w (init q)
                        startRecord P)) /\
  (1 <= T -> Z.of_nat (calls_needed T P) = ceil_div T P) /\
  (T = 0 -> calls_needed T P = 1%nat).
Proof.
  intros HT HP Hst.
  destruct (ceil_div_bounds T P HT HP) as [Up Lo].
  assert (C0 : 0 <= ceil_div T P) by nia.
  assert (N : Z.of_nat (calls_needed T P) = Z.max 1 (ceil_div T P)).
  { unfold calls_needed. rewrite Z2Nat.id; lia. }
  assert (after : forall k,
            exists w' self' a',
              fetch_pages k srv w (init q) startRecord P = Fed w' self' a' P /\
              overall_query_objects_tracker self' = Z.of_nat k * P /\
              completed_query self' =
                negb (Nat.eqb k 0) && (Z.of_nat k * P >=? T)).
  { intros k.
    destruct (fetch_pages_stable srv T P ltac:(lia) Hst k w (init q) startRecord)
      as (w' & self' & a' & F & Tr & _ & Co).
    exists w', self', a'. cbn in Tr, Co. auto. }
  destruct (after (calls_needed T P)) as (w' & self' & a' & F & Tr & Co).
  assert (Pos : calls_needed T P <> 0%nat) by lia.
  split; [|split; [|split; [|split]]].
  - unfold completes_after. rewrite F. cbn. split; [reflexivity|]. split.
    + rewrite Co. apply Nat.eqb_neq in Pos. rewrite Pos. cbn.
      apply geb_true_iff. nia.
    + intros k Hk.
      destruct (after k) as (wk & sk & ak & Fk & _ & Ck).
      rewrite Fk. cbn. rewrite Ck.
      destruct k as [|k]; [reflexivity|]. cbn.
      apply geb_false_iff. nia.
  - rewrite F. cbn. exact Tr.
  - rewrite F. cbn. nia.
  - intros H1. rewrite N. nia.
  - intros ->. unfold calls_needed, ceil_div.
    replace ((0 + P - 1) / P) with 0; [reflexivity|].
    symmetry. apply Z.div_small. lia.
Qed.

Lemma calls_until_completed_witness :
  completes_after (Samples.steady "25") Samples.fresh (init "date=2019") 1 10
    (calls_needed 25 10) /\
  overall_query_objects_tracker
    (session_of (fetch_pages (calls_needed 25 10) (Samples.steady "25")
                   Samples.fresh (init "date=2019") 1 10))
    = Z.of_nat (calls_needed 25 10) * 10 /\
  25 <= overall_query_objects_tracker
          (session_of (fetch_pages (calls_needed 25 10) (Samples.steady "25")
                         Samples.fresh (init "date=2019") 1 10)) /\
  (1 <= 25 -> Z.of_nat (calls_needed 25 10) = ceil_div 25 10) /\
  (25 = 0 -> calls_needed 25 10 = 1%nat).
Proof.
  apply (calls_until_completed (Samples.steady "25") Samples.fresh
           "date=2019" 1 25 10).
  - lia.
  - lia.
  - intros history url. exists (Samples.results_page "25").
    exists (mkResponse 200 (Some (Samples.results_page "25"))).
    repeat split; reflexivity.
Defined.

(** The spec's scenario: total 25, page size 10, start records 1, 11, 21,
    tracker 30 and the flag set after the third call. *)
Example three_pages_of_ten :
  calls_needed 25 10 = 3%nat /\
  exists w self,
    fetch_pages 3 (Samples.steady "25") Samples.fresh (init "date=2019") 1 10
      = Fed w self 31 10 /\
    requests w =
      [build_url (init "date=2019") 1 10;
       build_url (init "date=2019") 11 10;
       build_url (init "date=2019") 21 10] /\
    overall_query_objects_tracker self = 30 /\
    completed_query self = true.
Proof. split; [reflexivity|]. eexists _, _. repeat split; vm_compute; reflexivity. Qed.

(** ** Automatic pagination *)

Lemma deeper_deeper (stack : Stack) (k : nat) :
  deeper (deeper stack 1) k = deeper stack (S k).
Proof. unfold deeper. cbn. f_equal. lia. Qed.

Lemma fetch_pages_step
    (srv : Server) (w w1 : World) (self self1 : LexmlAcervo)
    (a m a1 m1 : Z) (tree : Element) (k : nat) :
  query srv w self a m = (w1, self1, Returned (Some (tree, a1, m1))) ->
  fetch_pages (S k) srv w self a m = fetch_pages k srv w1 self1 a1 m1.
Proof. intros Q. cbn. now rewrite Q. Qed.


(** A run that halts within the calls that fit the stack: the method ends
    where the run ends. *)
Lemma automatic_pagination_halts (srv : Server) :
  forall (n : nat) (stack : Stack) (w : World) (self : LexmlAcervo) (a m : Z),
    (1 <= query_frames stack)%nat ->
    (n <= calls_that_fit stack)%nat ->
    (forall k, (k < n)%nat -> halts (fetch_pages k srv w self a m) = false) ->
    halts (fetch_pages n srv w self a m) = true ->
    forall fuel, (n < fuel)%nat ->
      automatic_pagination fuel stack srv w self a m =
        Some (world_of (fetch_pages n srv w self a m),
              session_of (fetch_pages n srv w self a m),
              result_of (fetch_pages n srv w self a m)).
Proof.
  unfold calls_that_fit.
  induction n as [|n IH]; intros stack w self a m Hq Hfit Before H fuel Hf;
    destruct fuel as [|fuel]; try lia.
  - cbn in H |- *. now rewrite H.
  - pose proof (Before 0%nat ltac:(lia)) as C0. cbn in C0.
    cbn [automatic_pagination]. rewrite C0.
    destruct (Nat.ltb_spec (room stack) (query_frames stack)); [lia|].
    destruct (query srv w self a m) as [[w1 s1] [[[[t a1] m1]|]|e]] eqn:Q.
    + destruct (room stack) as [|r] eqn:R; [lia|].
      rewrite (fetch_pages_step _ _ _ _ _ _ _ _ _ _ n Q) in H |- *.
      assert (Inner : automatic_pagination fuel (deeper stack 1) srv w1 s1 a1 m1
                = Some (world_of (fetch_pages n srv w1 s1 a1 m1),
                        session_of (fetch_pages n srv w1 s1 a1 m1),
                        result_of (fetch_pages n srv w1 s1 a1 m1))).
      { apply IH; try assumption; cbn [deeper query_frames room]; try lia.
        intros k Hk. rewrite <- (fetch_pages_step _ _ _ _ _ _ _ _ _ _ k Q).
        apply Before. lia. }
      rewrite Inner.
      destruct (fetch_pages n srv w1 s1 a1 m1) as [wn sn an mn | wn sn on];
        cbn [result_of world_of session_of halts] in H |- *; [|reflexivity].
      destruct fuel as [|fuel]; [lia|]. cbn. now rewrite H.
    + cbn [fetch_pages]. rewrite Q. reflexivity.
    + cbn [fetch_pages]. rewrite Q. reflexivity.
Qed.

(** A run that does not halt within the calls that fit the stack: the
    method ends with [RecursionError] where the run stands then. *)
Lemma automatic_pagination_overflows (srv : Server) :
  forall (n : nat) (stack : Stack) (w : World) (self : LexmlAcervo) (a m : Z),
    (1 <= query_frames stack)%nat ->
    calls_that_fit stack = n ->
    (forall k, (k <= n)%nat -> halts (fetch_pages k srv w self a m) = false) ->
    forall fuel, (n < fuel)%nat ->
      automatic_pagination fuel stack srv w self a m =
        Some (overflow_of stack (fetch_pages n srv w self a m)).
Proof.
  unfold calls_that_fit.
  induction n as [|n IH]; intros stack w self a m Hq Hfit Before fuel Hf;
    destruct fuel as [|fuel]; try lia;
    pose proof (Before 0%nat ltac:(lia)) as C0; cbn in C0;
    cbn [automatic_pagination]; rewrite C0.
  - destruct (Nat.ltb_spec (room stack) (query_frames stack)); [|lia].
    cbn [fetch_pages overflow_of]. unfold calls_that_fit. rewrite Hfit.
    unfold deeper, overflowed. cbn. now rewrite Nat.sub_0_r.
  - destruct (Nat.ltb_spec (room stack) (query_frames stack)); [lia|].
    pose proof (Before 1%nat ltac:(lia)) as C1.
    destruct (query srv w self a m) as [[w1 s1] [[[[t a1] m1]|]|e]] eqn:Q;
      [| cbn in C1; rewrite Q in C1; discriminate
       | cbn in C1; rewrite Q in C1; discriminate].
    destruct (room stack) as [|r] eqn:R; [lia|].
    rewrite (fetch_pages_step _ _ _ _ _ _ _ _ _ _ n Q).
    rewrite (IH (deeper stack 1) w1 s1 a1 m1).
    + destruct (fetch_pages n srv w1 s1 a1 m1) as [wn sn an mn | wn sn on];
        cbn [overflow_of]; [|reflexivity].
      unfold calls_that_fit. cbn [deeper room query_frames].
      rewrite R, Hfit.
      replace (S (S r - 1) - query_frames stack)%nat with n by lia.
      unfold overflowed, deeper. cbn [room sent_at_overflow].
      replace (room stack - 1 - n)%nat with (room stack - S n)%nat by lia.
      reflexivity.
    + exact Hq.
    + cbn [deeper room query_frames]. lia.
    + intros k Hk. rewrite <- (fetch_pages_step _ _ _ _ _ _ _ _ _ _ k Q).
      apply Before. lia.
    + lia.
Qed.




(** The run against [Samples.breaking]: two pages, then [TypeError]. *)
Example breaking_run_raises_type_error :
  result_of (fetch_pages 3 Samples.breaking Samples.fresh
               (init "date=2019") 1 10) = Raised TypeError /\
  length (containerOfXmlFiles
            (session_of (fetch_pages 3 Samples.breaking Samples.fresh
                           (init "date=2019") 1 10))) = 2%nat.
Proof. split; vm_compute; reflexivity. Qed.

(** The run against a steady total of 25: three pages, then a return. *)
Example steady_run_returns :
  exists w self,
    automatic_pagination 4 roomy (Samples.steady "25") Samples.fresh
      (init "date=2019") 1 10 = Some (w, self, Returned tt) /\
    length (requests w) = 3%nat /\
    overall_query_objects_tracker self = 30.
Proof. eexists _, _. repeat split; vm_compute; reflexivity. Qed.

(** The same run on a stack with room for two pages: [RecursionError]
    after two pages, with the third request sent and the flag clear. *)
Example steady_run_overflows :
  exists w self,
    automatic_pagination 4 shallow (Samples.steady "25") Samples.fresh
      (init "date=2019") 1 10 = Some (w, self, Raised RecursionError) /\
    length (requests w) = 3%nat /\
    length (containerOfXmlFiles self) = 2%nat /\
    completed_query self = false.
Proof. eexists _, _. repeat split; vm_compute; reflexivity. Qed.

(** ** Page size zero *)

(** One call with page size zero on a session whose tracker is below the
    reported total. *)
Lemma query_page_size_zero
    (srv : Server) (w : World) (self : LexmlAcervo) (a t : Z) :
  completed_query self = false ->
  overall_query_objects_tracker self = t ->
  (forall history url, exists tree n, valid_page (srv history url) tree n /\ t < n) ->
  exists w' self' tree,
    query srv w self a 0 =
      (w', self',
       Returned (Some (tree, overall_query_objects_tracker self + 1, 0))) /\
    requests w' = (requests w ++ [build_url self a 0])%list /\
    containerOfXmlFiles self' = (containerOfXmlFiles self ++ [tree])%list /\
    overall_query_objects_tracker self' = t /\
    completed_query self' = false.
Proof.
  intros C Tr Hsrv.
  destruct (Hsrv (requests w) (build_url self a 0)) as (tree & n & V & Hn).
  destruct (query_valid_page srv w self a 0 tree n V) as (w' & E & R).
  exists w', (advanced self tree n 0), tree.
  rewrite E. replace (overall_query_objects_tracker self + 0 + 1)
    with (overall_query_objects_tracker self + 1) by lia.
  split; [reflexivity|]. split; [exact R|]. cbn.
  split; [reflexivity|]. split; [lia|].
  rewrite C. cbn. apply geb_false_iff. lia.
Qed.

(** C10, as stated, fails: a session that one page of ten has taken to
    tracker 10 is not completed, the next reply reports a positive
    total, 5, and the call with page size 0 sets the flag; the automatic
    pagination with page size 0 then returns. *)
Lemma page_size_zero_can_complete :
  completed_query
    (session_of (fetch_pages 1 shrinking Samples.fresh (init "date=2019") 1 10))
    = false /\
  completed_query
    (snd (fst (query shrinking
                 (world_of (fetch_pages 1 shrinking Samples.fresh
                              (init "date=2019") 1 10))
                 (session_of (fetch_pages 1 shrinking Samples.fresh
                                (init "date=2019") 1 10))
                 11 0))) = true /\
  exists w self,
    automatic_pagination 3 roomy shrinking
      (world_of (fetch_pages 1 shrinking Samples.fresh (init "date=2019") 1 10))
      (session_of (fetch_pages 1 shrinking Samples.fresh
                     (init "date=2019") 1 10))
      11 0 = Some (w, self, Returned tt).
Proof.
  split; [vm_compute; reflexivity|]. split; [vm_compute; reflexivity|].
  eexists _, _. vm_compute. reflexivity.
Qed.

(** C10, amended.  With page size 0, on a session that is not completed
    and whose tracker is below every total the replies report (on a new
    session: replies that report positive totals): a call still sends
    the request and stores the page, leaves the tracker as it was and
    the flag clear; any number of fed-forward calls leaves them so;
    [automatic_pagination] never returns; it goes on, one frame per
    page, until the stack is used up, and ends with [RecursionError]
    with the tracker as it was and the flag clear. *)
Theorem page_size_zero_makes_no_progress
    (stack : Stack) (srv : Server) (w : World) (self : LexmlAcervo)
    (startRecord : Z) :
  (1 <= query_frames stack)%nat ->
  completed_query self = false ->
  (forall history url,
     exists tree n,
       valid_page (srv history url) tree n /\
       overall_query_objects_tracker self < n) ->
  (exists w' self' tree next,
     query srv w self startRecord 0 =
       (w', self', Returned (Some (tree, next, 0))) /\
     requests w' = (requests w ++ [build_url self startRecord 0])%list /\
     containerOfXmlFiles self' = (containerOfXmlFiles self ++ [tree])%list /\
     overall_query_objects_tracker self' = overall_query_objects_tracker self /\
     completed_query self' = false) /\
  (forall k,
     all_pages (fetch_pages k srv w self startRecord 0) = true /\
     overall_query_objects_tracker
       (session_of (fetch_pages k srv w self startRecord 0))
       = overall_query_objects_tracker self /\
     completed_query (session_of (fetch_pages k srv w self startRecord 0))
       = false /\
     length (requests (world_of (fetch_pages k srv w self startRecord 0)))
       = (length (requests w) + k)%nat /\
     length (containerOfXmlFiles
               (session_of (fetch_pages k srv w self startRecord 0)))
       = (length (containerOfXmlFiles self) + k)%nat) /\
  (forall fuel w' self' u,
     automatic_pagination fuel stack srv w self startRecord 0
       <> Some (w', self', Returned u)) /\
  (forall fuel, (calls_that_fit stack < fuel)%nat ->
     automatic_pagination fuel stack srv w self startRecord 0 =
       Some (overflow_of stack
               (fetch_pages (calls_that_fit stack) srv w self startRecord 0))).
Proof.
  intros Hq C Hsrv.
  assert (Run : forall k w self a,
            completed_query self = false ->
            (forall history url,
               exists tree n,
                 valid_page (srv history url) tree n /\
                 overall_query_objects_tracker self < n) ->
            all_pages (fetch_pages k srv w self a 0) = true /\
            overall_query_objects_tracker
              (session_of (fetch_pages k srv w self a 0))
              = overall_query_objects_tracker self /\
            completed_query (session_of (fetch_pages k srv w self a 0))
              = false /\
            length (requests (world_of (fetch_pages k srv w self a 0)))
              = (length (requests w) + k)%nat /\
            length (containerOfXmlFiles
                      (session_of (fetch_pages k srv w self a 0)))
              = (length (containerOfXmlFiles self) + k)%nat).
  { clear w self startRecord C Hsrv.
    induction k as [|k IH]; intros w self a C Hsrv.
    - cbn. repeat split; auto; lia.
    - destruct (query_page_size_zero srv w self a _ C eq_refl Hsrv)
        as (w' & self' & tree & E & R & Cn & T' & C').
      cbn [fetch_pages]. rewrite E.
      destruct (IH w' self' (overall_query_objects_tracker self + 1) C')
        as (A1 & A2 & A3 & A4 & A5).
      { now rewrite T'. }
      split; [exact A1|]. split; [congruence|]. split; [exact A3|]. split.
      + rewrite A4, R, length_app. cbn. lia.
      + rewrite A5, Cn, length_app. cbn. lia. }
  split; [|split; [|split]].
  - destruct (query_page_size_zero srv w self startRecord _ C eq_refl Hsrv)
      as (w' & self' & tree & E & R & Cn & T' & C').
    exists w', self', tree, (overall_query_objects_tracker self + 1). auto.
  - intros k. now apply Run.
  - intros fuel. revert stack w self startRecord Hq C Hsrv.
    induction fuel as [|fuel IH]; intros stack w self a Hq C Hsrv w' s' u;
      cbn [automatic_pagination]; [discriminate|].
    rewrite C.
    destruct (room stack <? query_frames stack)%nat; [discriminate|].
    destruct (query_page_size_zero srv w self a _ C eq_refl Hsrv)
      as (w1 & s1 & tree & E & R & Cn & T' & C').
    rewrite E. destruct (room stack); [discriminate|].
    destruct (automatic_pagination fuel (deeper stack 1) srv w1 s1
                (overall_query_objects_tracker self + 1) 0)
      as [[[w2 s2] [u2|e2]]|] eqn:Inner; try discriminate.
    exfalso. eapply (IH (deeper stack 1) w1 s1); eauto.
    intros history url. rewrite T'. apply Hsrv.
  - intros fuel Hf. apply automatic_pagination_overflows; auto.
    intros k _. destruct (Run k w self startRecord C Hsrv) as (A & _ & B & _).
    destruct (fetch_pages k srv w self startRecord 0);
      [exact B | discriminate A].
Qed.

Lemma page_size_zero_makes_no_progress_witness :
  (exists w' self' tree next,
     query (Samples.steady "25") Samples.fresh (init "date=2019") 1 0 =
       (w', self', Returned (Some (tree, next, 0))) /\
     requests w' =
       (requests Samples.fresh ++ [build_url (init "date=2019") 1 0])%list /\
     containerOfXmlFiles self' =
       (containerOfXmlFiles (init "date=2019") ++ [tree])%list /\
     overall_query_objects_tracker self' =
       overall_query_objects_tracker (init "date=2019") /\
     completed_query self' = false) /\
  (forall k,
     all_pages (fetch_pages k (Samples.steady "25") Samples.fresh
                  (init "date=2019") 1 0) = true /\
     overall_query_objects_tracker
       (session_of (fetch_pages k (Samples.steady "25") Samples.fresh
                      (init "date=2019") 1 0))
       = overall_query_objects_tracker (init "date=2019") /\
     completed_query
       (session_of (fetch_pages k (Samples.steady "25") Samples.fresh
                      (init "date=2019") 1 0)) = false /\
     length (requests (world_of (fetch_pages k (Samples.steady "25")
                                   Samples.fresh (init "date=2019") 1 0)))
       = (length (requests Samples.fresh) + k)%nat /\
     length (containerOfXmlFiles
               (session_of (fetch_pages k (Samples.steady "25") Samples.fresh
                              (init "date=2019") 1 0)))
       = (length (containerOfXmlFiles (init "date=2019")) + k)%nat) /\
  (forall fuel w' self' u,
     automatic_pagination fuel shallow (Samples.steady "25") Samples.fresh
       (init "date=2019") 1 0 <> Some (w', self', Returned u)) /\
  (forall fuel, (calls_that_fit shallow < fuel)%nat ->
     automatic_pagination fuel shallow (Samples.steady "25") Samples.fresh
       (init "date=2019") 1 0 =
       Some (overflow_of shallow
               (fetch_pages (calls_that_fit shallow) (Samples.steady "25")
                  Samples.fresh (init "date=2019") 1 0))).
Proof.
  apply (page_size_zero_makes_no_progress shallow (Samples.steady "25")
           Samples.fresh (init "date=2019") 1).
  - vm_compute. lia.
  - reflexivity.
  - intros history url. exists (Samples.results_page "25"), 25. split; [|cbn; lia].
    exists (mkResponse 200 (Some (Samples.results_page "25"))).
    repeat split; reflexivity.
Defined.

(** ** The outcome of a call, case by case *)

(** [parseError] on a diagnostics root succeeds exactly when the document
    has at least four elements. *)
Lemma report_diagnostics_outcome
    (w0 : World) (self : LexmlAcervo) (tree : Element) :
  contains "diagnostics" (tag tree) = true ->
  snd (report_diagnostics w0 self tree) =
    if (4 <=? length (getiterator tree))%nat then Returned None
    else Raised IndexError.
Proof.
  intros Hd. unfold report_diagnostics, parseError, getitem. rewrite Hd.
  destruct (nth_error (getiterator tree) 3) eqn:E3.
  - assert (L : (3 < length (getiterator tree))%nat).
    { apply nth_error_Some. congruence. }
    destruct (Nat.leb_spec 4 (length (getiterator tree))); [|lia].
    destruct (nth_error (getiterator tree) 4); reflexivity.
  - apply nth_error_None in E3.
    destruct (Nat.leb_spec 4 (length (getiterator tree))); [lia|reflexivity].
Qed.

(** What [query] returns or raises, read off the reply alone. *)
Lemma query_outcome
    (srv : Server) (w : World) (self : LexmlAcervo)
    (startRecord maximumRecordsPerPage : Z) :
  snd (query srv w self startRecord maximumRecordsPerPage) =
  match srv (requests w) (build_url self startRecord maximumRecordsPerPage) with
  | Unreachable => Raised RequestException
  | Answer r =>
      match body r with
      | None => Raised XmlError
      | Some tree =>
          if contains "diagnostics" (tag tree) then
            if (4 <=? length (getiterator tree))%nat then Returned None
            else Raised IndexError
          else if raises_for_status r then Returned None
          else
            match numeroObjetos tree with
            | Returned _ =>
                Returned (Some (tree,
                                overall_query_objects_tracker self
                                  + maximumRecordsPerPage + 1,
                                maximumRecordsPerPage))
            | Raised e => Raised e
            end
      end
  end.
Proof.
  rewrite query_unfold.
  destruct (srv (requests w) _) as [|r]; [reflexivity|].
  unfold loadIntoXml.
  destruct (body r) as [tree|]; [|destruct (raises_for_status r); reflexivity].
  destruct (contains "diagnostics" (tag tree)) eqn:Hd.
  - destruct (raises_for_status r); now apply report_diagnostics_outcome.
  - destruct (raises_for_status r); [reflexivity|].
    destruct (numeroObjetos tree) as [n|e] eqn:Hn.
    + destruct (accept_page_spec self startRecord maximumRecordsPerPage
                  (entered w self
                     (build_url self startRecord maximumRecordsPerPage))
                  (build_url self startRecord maximumRecordsPerPage)
                  (replace_space (query_string self)) tree n Hn)
        as (w' & -> & _).
      reflexivity.
    + now rewrite (accept_page_raises self startRecord maximumRecordsPerPage
                     _ _ _ tree e Hn).
Qed.

(** X1.  A call that does not hand back a triple leaves the session
    object exactly as it was: no field is updated half-way. *)
Theorem failed_call_leaves_session
    (srv : Server) (w w' : World) (self self' : LexmlAcervo)
    (startRecord maximumRecordsPerPage : Z) (o : Outcome QueryResult) :
  query srv w self startRecord maximumRecordsPerPage = (w', self', o) ->
  (forall page, o <> Returned (Some page)) ->
  self' = self.
Proof.
  intros E N.
  destruct (query_cases srv w self startRecord maximumRecordsPerPage)
    as (w2 & s2 & o2 & E2 & _ & _ & D).
  rewrite E in E2. inversion E2; subst.
  destruct D as [[-> _] | (tree & n & _ & _ & ->)]; [reflexivity|].
  exfalso. eapply N. reflexivity.
Qed.

Lemma failed_call_leaves_session_witness :
  snd (fst (query Samples.failing Samples.fresh (init "date=2019") 1 10))
    = init "date=2019".
Proof.
  apply (failed_call_leaves_session Samples.failing Samples.fresh
           (fst (fst (query Samples.failing Samples.fresh
                        (init "date=2019") 1 10)))
           (init "date=2019")
           (snd (fst (query Samples.failing Samples.fresh
                        (init "date=2019") 1 10)))
           1 10
           (snd (query Samples.failing Samples.fresh (init "date=2019") 1 10))).
  - reflexivity.
  - intros page. vm_compute. discriminate.
Defined.

(** X2.  [query] hands back a triple exactly when the reply is a valid
    page; the triple is then that page's tree, the old tracker plus the
    page size plus one, and the page size. *)
Theorem query_returns_page_iff
    (srv : Server) (w : World) (self : LexmlAcervo)
    (startRecord maximumRecordsPerPage : Z)
    (tree : Element) (next size : Z) :
  snd (query srv w self startRecord maximumRecordsPerPage)
    = Returned (Some (tree, next, size))
  <->
  (exists n,
     valid_page
       (srv (requests w) (build_url self startRecord maximumRecordsPerPage))
       tree n) /\
  next = overall_query_objects_tracker self + maximumRecordsPerPage + 1 /\
  size = maximumRecordsPerPage.
Proof.
  rewrite query_outcome. split.
  - destruct (srv (requests w) _) as [|r] eqn:Hr; [discriminate|].
    destruct (body r) as [t|] eqn:Hb; [|discriminate].
    destruct (contains "diagnostics" (tag t)) eqn:Hd.
    { destruct (4 <=? length (getiterator t))%nat; discriminate. }
    destruct (raises_for_status r) eqn:Hs; [discriminate|].
    destruct (numeroObjetos t) as [n|e] eqn:Hn; [|discriminate].
    intros E. inversion E; subst. split; [|split; reflexivity].
    exists n, r. auto.
  - intros [[n (r & -> & Hs & Hb & Hd & Hn)] [-> ->]].
    now rewrite Hb, Hd, Hs, Hn.
Qed.

(** X3.  [query] returns [None] in two situations only: the root is a
    diagnostics element of a document with at least four elements, or
    the status is 4xx/5xx and the parsed body is not a diagnostics
    document. *)
Theorem query_returns_none_iff
    (srv : Server) (w : World) (self : LexmlAcervo)
    (startRecord maximumRecordsPerPage : Z) :
  snd (query srv w self startRecord maximumRecordsPerPage) = Returned None
  <->
  exists r tree,
    srv (requests w) (build_url self startRecord maximumRecordsPerPage)
      = Answer r /\
    body r = Some tree /\
    ((contains "diagnostics" (tag tree) = true /\
      (4 <= length (getiterator tree))%nat) \/
     (contains "diagnostics" (tag tree) = false /\
      raises_for_status r = true)).
Proof.
  rewrite query_outcome. split.
  - destruct (srv (requests w) _) as [|r] eqn:Hr; [discriminate|].
    destruct (body r) as [t|] eqn:Hb; [|discriminate].
    intros E. exists r, t. split; [reflexivity|]. split; [exact Hb|].
    destruct (contains "diagnostics" (tag t)) eqn:Hd.
    + destruct (Nat.leb_spec 4 (length (getiterator t))); [auto|discriminate].
    + destruct (raises_for_status r); [auto|].
      destruct (numeroObjetos t); discriminate.
  - intros (r & t & -> & -> & [[-> L] | [-> ->]]); [|reflexivity].
    destruct (Nat.leb_spec 4 (length (getiterator t))); [reflexivity|lia].
Qed.

(** X4.  [query] raises in four situations only: no response
    ([RequestException]); a body that does not decode or parse
    ([XmlError]); a diagnostics document of fewer than four elements
    ([IndexError], from the handler inside [parseError]); a result page
    with a good status whose record count cannot be read (the exception
    of [numeroObjetos]).  A 4xx/5xx status alone never makes it raise. *)
Theorem query_raises_iff
    (srv : Server) (w : World) (self : LexmlAcervo)
    (startRecord maximumRecordsPerPage : Z) (e : Exn) :
  snd (query srv w self startRecord maximumRecordsPerPage) = Raised e
  <->
  (srv (requests w) (build_url self startRecord maximumRecordsPerPage)
     = Unreachable /\ e = RequestException) \/
  (exists r,
     srv (requests w) (build_url self startRecord maximumRecordsPerPage)
       = Answer r /\
     ((body r = None /\ e = XmlError) \/
      (exists tree,
         body r = Some tree /\
         ((contains "diagnostics" (tag tree) = true /\
           (length (getiterator tree) < 4)%nat /\ e = IndexError) \/
          (contains "diagnostics" (tag tree) = false /\
           raises_for_status r = false /\
           numeroObjetos tree = Raised e))))).
Proof.
  rewrite query_outcome. split.
  - destruct (srv (requests w) _) as [|r] eqn:Hr.
    { intros E. inversion E. auto. }
    intros E. right. exists r. split; [reflexivity|].
    destruct (body r) as [t|] eqn:Hb.
    2:{ inversion E. auto. }
    right. exists t. split; [reflexivity|].
    destruct (contains "diagnostics" (tag t)) eqn:Hd.
    + destruct (Nat.leb_spec 4 (length (getiterator t))); [discriminate|].
      inversion E. auto.
    + destruct (raises_for_status r); [discriminate|].
      destruct (numeroObjetos t); [discriminate|]. inversion E. auto.
  - intros [[-> ->] | (r & -> & [[-> ->] | (t & -> & [(-> & L & ->) | (-> & -> & ->)])])];
      try reflexivity.
    destruct (Nat.leb_spec 4 (length (getiterator t))); [lia|reflexivity].
Qed.

(** ** What every run keeps *)

(** X5.  Along any number of fed-forward calls, against any server: the
    query string is kept; pages are only appended, at most one per call;
    the tracker grows by the page size once per stored page; one request
    is sent per stored page, and one more when the run stopped on a call
    that gave no triple; a set completed flag stays set. *)
Theorem run_invariants
    (srv : Server) (maximumRecordsPerPage : Z) :
  forall (n : nat) (w : World) (self : LexmlAcervo) (startRecord : Z),
  exists added urls,
    query_string
      (session_of (fetch_pages n srv w self startRecord maximumRecordsPerPage))
      = query_string self /\
    containerOfXmlFiles
      (session_of (fetch_pages n srv w self startRecord maximumRecordsPerPage))
      = (containerOfXmlFiles self ++ added)%list /\
    (length added <= n)%nat /\
    overall_query_objects_tracker
      (session_of (fetch_pages n srv w self startRecord maximumRecordsPerPage))
      = overall_query_objects_tracker self
        + Z.of_nat (length added) * maximumRecordsPerPage /\
    requests
      (world_of (fetch_pages n srv w self startRecord maximumRecordsPerPage))
      = (requests w ++ urls)%list /\
    length urls =
      (length added
       + if all_pages (fetch_pages n srv w self startRecord
                         maximumRecordsPerPage)
         then 0 else 1)%nat /\
    (completed_query self = true ->
     completed_query
       (session_of (fetch_pages n srv w self startRecord
                      maximumRecordsPerPage)) = true).
Proof.
  induction n as [|n IH]; intros w self a.
  - exists [], []. cbn. rewrite !app_nil_r. repeat split; auto; lia.
  - destruct (query_cases srv w self a maximumRecordsPerPage)
      as (w1 & s1 & o & E & R & _ & D).
    cbn [fetch_pages]. rewrite E.
    destruct D as [[-> N] | (tree & k & _ & -> & ->)].
    + exists [], [build_url self a maximumRecordsPerPage].
      destruct o as [[[[t a1] m1]|]|e];
        [exfalso; eapply N; reflexivity | |];
        cbn; rewrite app_nil_r; repeat split; auto; lia.
    + destruct (IH w1 (advanced self tree k maximumRecordsPerPage)
                  (overall_query_objects_tracker self
                     + maximumRecordsPerPage + 1))
        as (added & urls & Q & C & L & T & U & LU & M).
      exists (tree :: added),
             (build_url self a maximumRecordsPerPage :: urls).
      cbn [advanced query_string containerOfXmlFiles
           overall_query_objects_tracker completed_query] in Q, C, T, M.
      split; [exact Q|]. split.
      { rewrite C, <- app_assoc. reflexivity. }
      split; [cbn [length]; lia|]. split.
      { rewrite T. cbn [length]. rewrite Nat2Z.inj_succ. lia. }
      split.
      { rewrite U, R, <- app_assoc. reflexivity. }
      split; [cbn [length]; lia|].
      intros Hc. apply M. rewrite Hc. reflexivity.
Qed.

(** X6.  Whatever [automatic_pagination] ends with is the end of a
    fed-forward run.  Either the run has reached, within the calls that
    fit the stack, its first call after which the flag is set or which
    gave no triple, and the method ends as that run ends; or the run has
    made all the calls that fit the stack without halting, and the
    method ends with [RecursionError] in the session of the run so far,
    the flag clear.  It sends no request and touches the session in no
    way outside that run, but for the request of the call that ran out
    of frames. *)
Theorem automatic_pagination_is_a_run (srv : Server) :
  forall (fuel : nat) (stack : Stack) (w : World) (self : LexmlAcervo)
         (startRecord maximumRecordsPerPage : Z)
         (result : World * LexmlAcervo * Outcome unit),
    (1 <= query_frames stack)%nat ->
    automatic_pagination fuel stack srv w self startRecord
      maximumRecordsPerPage = Some result ->
    exists n,
      (n <= fuel)%nat /\
      (forall k, (k < n)%nat ->
         halts (fetch_pages k srv w self startRecord maximumRecordsPerPage)
           = false) /\
      (((n <= calls_that_fit stack)%nat /\
        halts (fetch_pages n srv w self startRecord maximumRecordsPerPage)
          = true /\
        result =
          (world_of (fetch_pages n srv w self startRecord
                       maximumRecordsPerPage),
           session_of (fetch_pages n srv w self startRecord
                         maximumRecordsPerPage),
           result_of (fetch_pages n srv w self startRecord
                        maximumRecordsPerPage))) \/
       (n = calls_that_fit stack /\
        halts (fetch_pages n srv w self startRecord maximumRecordsPerPage)
          = false /\
        result =
          overflow_of stack
            (fetch_pages n srv w self startRecord maximumRecordsPerPage))).
Proof.
  induction fuel as [|fuel IH]; intros stack w self a m result Hq;
    cbn [automatic_pagination].
  - discriminate.
  - destruct (completed_query self) eqn:C.
    { intros E. inversion E; subst. exists 0%nat. cbn.
      split; [lia|]. split; [intros k Hk; lia|]. left.
      split; [lia|]. auto. }
    destruct (Nat.ltb_spec (room stack) (query_frames stack)) as [Hr|Hr].
    { intros E. inversion E; subst. exists 0%nat.
      split; [lia|]. split; [intros k Hk; lia|]. right.
      split; [unfold calls_that_fit; lia|]. split; [exact C|].
      cbn [fetch_pages overflow_of].
      replace (calls_that_fit stack) with 0%nat
        by (unfold calls_that_fit; lia).
      unfold overflowed, deeper. cbn. now rewrite Nat.sub_0_r. }
    assert (Fit : (1 <= calls_that_fit stack)%nat)
      by (unfold calls_that_fit; lia).
    destruct (query srv w self a m) as [[w1 s1] [[[[t a1] m1]|]|e]] eqn:Q.
    + destruct (room stack) as [|r] eqn:R; [lia|].
      destruct (automatic_pagination fuel (deeper stack 1) srv w1 s1 a1 m1)
        as [inner|] eqn:Inner; [|discriminate].
      destruct (IH (deeper stack 1) w1 s1 a1 m1 inner Hq Inner)
        as (n & Hn & Before & D).
      assert (Fit1 : calls_that_fit (deeper stack 1)
                     = (calls_that_fit stack - 1)%nat).
      { unfold calls_that_fit, deeper. cbn. lia. }
      assert (Ex : forall k, (k < S n)%nat ->
                halts (fetch_pages k srv w self a m) = false).
      { intros [|k] Hk; [exact C|].
        rewrite (fetch_pages_step _ _ _ _ _ _ _ _ _ _ k Q).
        apply Before. lia. }
      intros E. exists (S n). split; [lia|]. split; [exact Ex|].
      rewrite (fetch_pages_step _ _ _ _ _ _ _ _ _ _ n Q).
      destruct D as [(Hfit & H & ->) | (Hfit & H & ->)].
      * left. split; [lia|]. split; [exact H|].
        destruct (fetch_pages n srv w1 s1 a1 m1) as [wn sn an mn | wn sn on];
          cbn [world_of session_of result_of halts] in H, E |- *.
        -- destruct fuel as [|fuel]; [discriminate Inner|].
           cbn [automatic_pagination] in E. rewrite H in E.
           now inversion E.
        -- now inversion E.
      * right. split; [lia|]. split; [exact H|].
        destruct (fetch_pages n srv w1 s1 a1 m1) as [wn sn an mn | wn sn on];
          [|discriminate H].
        cbn [overflow_of] in E |- *. inversion E; subst.
        rewrite Fit1, deeper_deeper.
        replace (S (calls_that_fit stack - 1)) with (calls_that_fit stack)
          by lia.
        reflexivity.
    + intros E. inversion E; subst. exists 1%nat. cbn [fetch_pages].
      rewrite Q. split; [lia|]. split.
      { intros [|k] Hk; [exact C | lia]. }
      left. cbn. auto.
    + intros E. inversion E; subst. exists 1%nat. cbn [fetch_pages].
      rewrite Q. split; [lia|]. split.
      { intros [|k] Hk; [exact C | lia]. }
      left. cbn. auto.
Qed.

Lemma automatic_pagination_is_a_run_witness :
  exists n,
    (n <= 4)%nat /\
    (forall k, (k < n)%nat ->
       halts (fetch_pages k (Samples.steady "25") Samples.fresh
                (init "date=2019") 1 10) = false) /\
    (((n <= calls_that_fit shallow)%nat /\
      halts (fetch_pages n (Samples.steady "25") Samples.fresh
               (init "date=2019") 1 10) = true /\
      overflow_of shallow
        (fetch_pages 2 (Samples.steady "25") Samples.fresh
           (init "date=2019") 1 10) =
        (world_of (fetch_pages n (Samples.steady "25") Samples.fresh
                     (init "date=2019") 1 10),
         session_of (fetch_pages n (Samples.steady "25") Samples.fresh
                       (init "date=2019") 1 10),
         result_of (fetch_pages n (Samples.steady "25") Samples.fresh
                      (init "date=2019") 1 10))) \/
     (n = calls_that_fit shallow /\
      halts (fetch_pages n (Samples.steady "25") Samples.fresh
               (init "date=2019") 1 10) = false /\
      overflow_of shallow
        (fetch_pages 2 (Samples.steady "25") Samples.fresh
           (init "date=2019") 1 10) =
        overflow_of shallow
          (fetch_pages n (Samples.steady "25") Samples.fresh
             (init "date=2019") 1 10))).
Proof.
  apply (automatic_pagination_is_a_run (Samples.steady "25") 4 shallow
           Samples.fresh (init "date=2019") 1 10).
  - vm_compute. lia.
  - vm_compute. reflexivity.
Defined.

(** ** Detection of diagnostics documents *)

Lemma append_cons (c : ascii) (s t : string) :
  String c s +:+ t = String c (s +:+ t).
Proof. reflexivity. Qed.

Lemma append_nil_l (t : string) : "" +:+ t = t.
Proof. reflexivity. Qed.

Lemma prefix_app (needle post : string) :
  String.prefix needle (needle +:+ post) = true.
Proof.
  induction needle as [|c needle IH]; [destruct post; reflexivity|].
  rewrite append_cons. cbn [String.prefix].
  destruct (ascii_dec c c); [exact IH | contradiction].
Qed.

Lemma prefix_split (needle hay : string) :
  String.prefix needle hay = true -> exists post, hay = needle +:+ post.
Proof.
  revert hay. induction needle as [|c needle IH]; intros hay.
  - intros _. exists hay. reflexivity.
  - destruct hay as [|d hay]; [discriminate|]. cbn [String.prefix].
    destruct (ascii_dec c d) as [->|]; [|discriminate].
    intros H. destruct (IH hay H) as [post ->]. exists post. reflexivity.
Qed.

(** [contains] is Python's [in]: the needle occurs somewhere. *)
Lemma contains_spec (needle hay : string) :
  contains needle hay = true <->
  exists pre post, hay = pre +:+ needle +:+ post.
Proof.
  split.
  - induction hay as [|c hay IH]; cbn [contains]; intros H;
      apply orb_true_iff in H; destruct H as [H|H]; try discriminate.
    + destruct (prefix_split _ _ H) as [post E]. exists "", post. exact E.
    + destruct (prefix_split _ _ H) as [post E]. exists "", post. exact E.
    + destruct (IH H) as (pre & post & ->). exists (String c pre), post.
      reflexivity.
  - intros (pre & post & ->). induction pre as [|c pre IH].
    + rewrite append_nil_l.
      destruct (needle +:+ post) eqn:E; cbn [contains];
        rewrite <- E, prefix_app; reflexivity.
    + rewrite append_cons. cbn [contains]. rewrite IH. apply orb_true_r.
Qed.

(** X7.  The test for a diagnostics document is a substring test on the
    root tag: a root whose tag has "diagnostics" anywhere in it, with
    any namespace before and anything after, is never stored as a page,
    whatever else the document holds and whatever the status; the call
    returns [None], or raises [IndexError] for a document of fewer than
    four elements, and the session is left as it was. *)
Theorem diagnostics_found_anywhere_in_root_tag
    (srv : Server) (w : World) (self : LexmlAcervo)
    (startRecord maximumRecordsPerPage : Z)
    (r : Response) (tree : Element) (pre post : string) :
  srv (requests w) (build_url self startRecord maximumRecordsPerPage)
    = Answer r ->
  body r = Some tree ->
  tag tree = pre +:+ "diagnostics" +:+ post ->
  snd (fst (query srv w self startRecord maximumRecordsPerPage)) = self /\
  snd (query srv w self startRecord maximumRecordsPerPage) =
    if (4 <=? length (getiterator tree))%nat then Returned None
    else Raised IndexError.
Proof.
  intros Hr Hb Ht.
  assert (Hd : contains "diagnostics" (tag tree) = true).
  { apply contains_spec. eauto. }
  assert (O : snd (query srv w self startRecord maximumRecordsPerPage) =
              if (4 <=? length (getiterator tree))%nat then Returned None
              else Raised IndexError).
  { now rewrite query_outcome, Hr, Hb, Hd. }
  split; [|exact O].
  destruct (query_cases srv w self startRecord maximumRecordsPerPage)
    as (w2 & s2 & o2 & E2 & _ & _ & D).
  rewrite E2 in O |- *. cbn [fst snd] in O |- *.
  destruct D as [[-> _] | (t & n & _ & _ & ->)]; [reflexivity|].
  revert O. destruct (4 <=? length (getiterator tree))%nat; discriminate.
Qed.

Lemma diagnostics_found_anywhere_in_root_tag_witness :
  snd (fst (query Samples.refusing Samples.fresh (init "date=2019") 1 10))
    = init "date=2019" /\
  snd (query Samples.refusing Samples.fresh (init "date=2019") 1 10) =
    if (4 <=? length (getiterator Samples.diagnostics_page))%nat
    then Returned None else Raised IndexError.
Proof.
  apply (diagnostics_found_anywhere_in_root_tag Samples.refusing Samples.fresh
           (init "date=2019") 1 10
           (mkResponse 200 (Some Samples.diagnostics_page))
           Samples.diagnostics_page "{http://www.loc.gov/zing/srw/}" "");
    reflexivity.
Defined.

(** X8.  [parseError] picks its texts by position in document order.  In
    a diagnostics document whose root has a first child with leaf
    children, the message is made of the second and third of these
    leaves (the first is skipped); with two leaves only, of the second
    alone; with fewer, the [IndexError] of the handler escapes.  A
    missing text is printed as "None". *)
Theorem parseError_reads_by_position
    (t t1 tu td tm : string) (x x1 xu xd xm : option string)
    (cs rest more : list Element) :
  contains "diagnostics" t = true ->
  parseError
    (Elem t x (Elem t1 x1 (Elem tu xu [] :: Elem td xd []
                             :: Elem tm xm cs :: rest) :: more))
    = Returned (Some ("Messagem de Erro: " +:+ format xd +:+ ": "
                        +:+ format xm)) /\
  parseError (Elem t x [Elem t1 x1 [Elem tu xu []; Elem td xd []]])
    = Returned (Some ("Messagem de Erro: " +:+ format xd)) /\
  parseError (Elem t x [Elem t1 x1 [Elem tu xu []]]) = Raised IndexError /\
  parseError (Elem t x []) = Raised IndexError.
Proof.
  intros Hd. unfold parseError. cbn [tag]. rewrite Hd.
  repeat split; reflexivity.
Qed.

Lemma parseError_reads_by_position_witness :
  parseError
    (Elem "diagnostics" None
       (Elem "diagnostic" None
          (Elem "uri" (Some "info:srw/diagnostic/1/10") []
             :: Elem "details" (Some "Query syntax error") []
             :: Elem "message" None [] :: []) :: []))
    = Returned (Some ("Messagem de Erro: " +:+ format (Some "Query syntax error")
                        +:+ ": " +:+ format None)) /\
  parseError (Elem "diagnostics" None
                [Elem "diagnostic" None
                   [Elem "uri" (Some "info:srw/diagnostic/1/10") [];
                    Elem "details" (Some "Query syntax error") []]])
    = Returned (Some ("Messagem de Erro: "
                        +:+ format (Some "Query syntax error"))) /\
  parseError (Elem "diagnostics" None
                [Elem "diagnostic" None
                   [Elem "uri" (Some "info:srw/diagnostic/1/10") []]])
    = Raised IndexError /\
  parseError (Elem "diagnostics" None []) = Raised IndexError.
Proof.
  apply (parseError_reads_by_position "diagnostics" "diagnostic" "uri"
           "details" "message" None None (Some "info:srw/diagnostic/1/10")
           (Some "Query syntax error") None [] [] []).
  reflexivity.
Defined.

(** ** The URLs of a run *)

Lemma build_url_query_string
    (s1 s2 : LexmlAcervo) (startRecord maximumRecordsPerPage : Z) :
  query_string s1 = query_string s2 ->
  build_url s1 startRecord maximumRecordsPerPage
    = build_url s2 startRecord maximumRecordsPerPage.
Proof. unfold build_url. now intros ->. Qed.

(** X9.  In a run whose calls all return a triple, the caller's start
    record is used for the first request only: request number [k >= 1]
    (counting from 0) asks for start record [tracker + k * size + 1],
    where [tracker] is the session's tracker before the run. *)
Theorem urls_of_a_run
    (srv : Server) (maximumRecordsPerPage : Z) :
  forall (n : nat) (w : World) (self : LexmlAcervo) (startRecord : Z),
    all_pages (fetch_pages n srv w self startRecord maximumRecordsPerPage)
      = true ->
    requests
      (world_of (fetch_pages n srv w self startRecord maximumRecordsPerPage))
    = (requests w ++
       match n with
       | O => []
       | S n' =>
           build_url self startRecord maximumRecordsPerPage
           :: map (fun k : nat =>
                     build_url self
                       (overall_query_objects_tracker self
                          + Z.of_nat k * maximumRecordsPerPage + 1)
                       maximumRecordsPerPage)
                  (seq 1 n')
       end)%list.
Proof.
  induction n as [|n IH]; intros w self a.
  - intros _. cbn. now rewrite app_nil_r.
  - cbn [fetch_pages].
    destruct (query_cases srv w self a maximumRecordsPerPage)
      as (w1 & s1 & o & E & R & _ & D).
    rewrite E.
    destruct D as [[-> N] | (tree & k & _ & -> & ->)].
    + destruct o as [[[[t a1] m1]|]|e];
        [exfalso; eapply N; reflexivity | discriminate | discriminate].
    + intros A. rewrite (IH _ _ _ A), R, <- app_assoc. f_equal. cbn [app].
      f_equal. destruct n as [|n]; [reflexivity|].
      cbn [seq map]. f_equal.
      * cbn [advanced overall_query_objects_tracker].
        rewrite (build_url_query_string _ self) by reflexivity.
        f_equal. lia.
      * rewrite <- (seq_shift n 1), map_map. apply map_ext. intros j.
        cbn [advanced overall_query_objects_tracker].
        rewrite (build_url_query_string _ self) by reflexivity.
        f_equal. lia.
Qed.

Lemma urls_of_a_run_witness :
  requests
    (world_of (fetch_pages 3 (Samples.steady "25") Samples.fresh
                 (init "date=2019") 7 10))
  = (requests Samples.fresh ++
     build_url (init "date=2019") 7 10
     :: map (fun k : nat =>
               build_url (init "date=2019")
                 (overall_query_objects_tracker (init "date=2019")
                    + Z.of_nat k * 10 + 1) 10)
            (seq 1 2))%list.
Proof.
  apply (urls_of_a_run (Samples.steady "25") 10 3 Samples.fresh
           (init "date=2019") 7).
  reflexivity.
Defined.

(** ** Escaping of the query string *)

Lemma contains_space_cons (c : ascii) (s : string) :
  contains " " (String c s) = Ascii.eqb c " "%char || contains " " s.
Proof.
  cbn [contains String.prefix].
  destruct (ascii_dec " " c) as [<-|N].
  - destruct s; reflexivity.
  - destruct (Ascii.eqb_spec c " "%char) as [->|_]; [contradiction|].
    reflexivity.
Qed.

Lemma append_assoc (s t u : string) : (s +:+ t) +:+ u = s +:+ t +:+ u.
Proof.
  induction s as [|c s IH]; [reflexivity|].
  rewrite !append_cons. now rewrite IH.
Qed.

Lemma replace_space_app (s t : string) :
  replace_space (s +:+ t) = replace_space s +:+ replace_space t.
Proof.
  induction s as [|c s IH]; [reflexivity|].
  rewrite append_cons. cbn [replace_space].
  destruct (Ascii.eqb c " "%char); rewrite IH.
  - now rewrite append_assoc.
  - now rewrite append_cons.
Qed.

Lemma build_url_shape
    (self : LexmlAcervo) (startRecord maximumRecordsPerPage : Z) :
  build_url self startRecord maximumRecordsPerPage =
    BASE_URL +:+ replace_space (query_string self) +:+ START_REC
      +:+ str startRecord +:+ MAXIMUM_REC +:+ str maximumRecordsPerPage.
Proof. reflexivity. Qed.

(** X10.  The requested URL is the base, the query string with every
    space replaced by "%20" and every other character left as it is,
    "&startRecord=" and the start record, "&maximumRecords=" and the
    page size.  So a space at any place of the query string stands as
    "%20" at that place of the URL, any other character, "&" among
    them, stands there as itself, the part of the URL that comes from
    the query string has no space, and a query string without spaces
    goes into the URL unchanged. *)
Theorem only_spaces_are_escaped
    (self : LexmlAcervo) (startRecord maximumRecordsPerPage : Z) :
  build_url self startRecord maximumRecordsPerPage =
    BASE_URL +:+ replace_space (query_string self) +:+ "&startRecord="
      +:+ str startRecord +:+ "&maximumRecords="
      +:+ str maximumRecordsPerPage /\
  (forall before after,
     query_string self = before +:+ " " +:+ after ->
     build_url self startRecord maximumRecordsPerPage =
       BASE_URL +:+ replace_space before +:+ "%20" +:+ replace_space after
         +:+ "&startRecord=" +:+ str startRecord +:+ "&maximumRecords="
         +:+ str maximumRecordsPerPage) /\
  (forall before c after,
     c <> " "%char ->
     query_string self = before +:+ String c after ->
     build_url self startRecord maximumRecordsPerPage =
       BASE_URL +:+ replace_space before
         +:+ String c (replace_space after
                         +:+ "&startRecord=" +:+ str startRecord
                         +:+ "&maximumRecords="
                         +:+ str maximumRecordsPerPage)) /\
  contains " " (replace_space (query_string self)) = false /\
  (contains " " (query_string self) = false ->
   build_url self startRecord maximumRecordsPerPage =
     BASE_URL +:+ query_string self +:+ "&startRecord="
       +:+ str startRecord +:+ "&maximumRecords="
       +:+ str maximumRecordsPerPage).
Proof.
  assert (NoSpace : forall s, contains " " (replace_space s) = false).
  { induction s as [|c s IH]; [reflexivity|]. cbn [replace_space].
    destruct (Ascii.eqb_spec c " "%char) as [->|N].
    - rewrite !append_cons, append_nil_l, !contains_space_cons, IH.
      reflexivity.
    - rewrite contains_space_cons, IH.
      destruct (Ascii.eqb_spec c " "%char); [contradiction|reflexivity]. }
  assert (Same : forall s, contains " " s = false -> replace_space s = s).
  { induction s as [|c s IH]; [reflexivity|].
    rewrite contains_space_cons. intros H.
    apply orb_false_iff in H. destruct H as [Hc Hs].
    cbn [replace_space]. rewrite Hc, (IH Hs). reflexivity. }
  split; [apply build_url_shape|]. split; [|split; [|split]].
  - intros before after E.
    rewrite build_url_shape, E, replace_space_app.
    change (replace_space (" " +:+ after))
      with ("%20" +:+ replace_space after).
    now rewrite !append_assoc.
  - intros before c after Hc E.
    rewrite build_url_shape, E, replace_space_app. cbn [replace_space].
    destruct (Ascii.eqb_spec c " "%char) as [->|_]; [contradiction|].
    now rewrite !append_assoc, append_cons.
  - apply NoSpace.
  - intros H. now rewrite build_url_shape, (Same _ H).
Qed.

(** A query string with two spaces and an "&". *)
Example url_of_a_query_with_spaces :
  build_url (init "date=2019 and title=a&b c") 1 10 =
    "https://www.lexml.gov.br/busca/SRU?operation=searchRetrieve&version=1.1&query=date=2019%20and%20title=a&b%20c&startRecord=1&maximumRecords=10".
Proof. vm_compute. reflexivity. Qed.

(** ** Automatic pagination against a stable total *)

Lemma fetch_pages_stable_world (srv : Server) (T P : Z) :
  stable_total srv T ->
  forall (k : nat) (w : World) (self : LexmlAcervo) (a : Z),
    length (requests (world_of (fetch_pages k srv w self a P)))
      = (length (requests w) + k)%nat /\
    (total_objects_of_query self = None \/
     total_objects_of_query self = Some T ->
     (0 < k)%nat ->
     total_objects_of_query (session_of (fetch_pages k srv w self a P))
       = Some T).
Proof.
  intros Hst k. induction k as [|k IH]; intros w self a.
  - cbn. split; [lia|]. intros _ H. lia.
  - destruct (Hst (requests w) (build_url self a P)) as [tree V].
    destruct (query_valid_page srv w self a P tree T V) as (w1 & E & R).
    cbn [fetch_pages]. rewrite E.
    destruct (IH w1 (advanced self tree T P)
                (overall_query_objects_tracker self + P + 1)) as [L Tot].
    split.
    + rewrite L, R, length_app. cbn. lia.
    + intros H0 _.
      assert (A : total_objects_of_query (advanced self tree T P) = Some T).
      { cbn. destruct H0 as [-> | ->]; [reflexivity|].
        cbn. destruct (T =? 0); reflexivity. }
      destruct k as [|k]; [exact A|]. apply Tot; [auto | lia].
Qed.

(** X11.  On a new session, against a server that always reports
    [T >= 0] records and with page size [P >= 1], the run needs
    [max 1 (ceil (T / P))] calls, one frame further down each.  When
    they fit the stack, [automatic_pagination] returns normally after
    exactly that many requests: it has stored that many pages, the
    tracker is that number times [P], the stored total is [T], and the
    flag is set.  When they do not fit, it ends with [RecursionError]
    after the calls that fit: that many pages are stored, the tracker is
    that number times [P], and the flag is clear. *)
Theorem automatic_pagination_on_stable_total
    (stack : Stack) (srv : Server) (w : World) (q : string)
    (startRecord T P : Z) :
  (1 <= query_frames stack)%nat ->
  0 <= T ->
  1 <= P ->
  stable_total srv T ->
  ((calls_needed T P <= calls_that_fit stack)%nat ->
   forall fuel, (calls_needed T P < fuel)%nat ->
   exists w' self',
     automatic_pagination fuel stack srv w (init q) startRecord P
       = Some (w', self', Returned tt) /\
     length (requests w') = (length (requests w) + calls_needed T P)%nat /\
     length (containerOfXmlFiles self') = calls_needed T P /\
     overall_query_objects_tracker self' = Z.of_nat (calls_needed T P) * P /\
     total_objects_of_query self' = Some T /\
     completed_query self' = true) /\
  ((calls_that_fit stack < calls_needed T P)%nat ->
   forall fuel, (calls_that_fit stack < fuel)%nat ->
   exists w' self',
     automatic_pagination fuel stack srv w (init q) startRecord P
       = Some (w', self', Raised RecursionError) /\
     length (requests w') =
       (length (requests w) + calls_that_fit stack
        + if sent_at_overflow stack (room stack - calls_that_fit stack)
          then 1 else 0)%nat /\
     length (containerOfXmlFiles self') = calls_that_fit stack /\
     overall_query_objects_tracker self'
       = Z.of_nat (calls_that_fit stack) * P /\
     completed_query self' = false).
Proof.
  intros Hq HT HP Hst.
  destruct (ceil_div_bounds T P HT HP) as [Up Lo].
  assert (C0 : 0 <= ceil_div T P) by nia.
  assert (N : Z.of_nat (calls_needed T P) = Z.max 1 (ceil_div T P)).
  { unfold calls_needed. rewrite Z2Nat.id; lia. }
  assert (Pos : calls_needed T P <> 0%nat) by lia.
  assert (after : forall k,
            exists w' self' a',
              fetch_pages k srv w (init q) startRecord P = Fed w' self' a' P /\
              overall_query_objects_tracker self' = Z.of_nat k * P /\
              length (containerOfXmlFiles self') = k /\
              completed_query self' =
                negb (Nat.eqb k 0) && (Z.of_nat k * P >=? T)).
  { intros k.
    destruct (fetch_pages_stable srv T P ltac:(lia) Hst k w (init q) startRecord)
      as (w' & self' & a' & F & Tr & Len & Co).
    exists w', self', a'. cbn in Tr, Len, Co. auto. }
  assert (early : forall k, (k < calls_needed T P)%nat ->
            halts (fetch_pages k srv w (init q) startRecord P) = false).
  { intros k Hk. destruct (after k) as (wk & sk & ak & Fk & _ & _ & Ck).
    rewrite Fk. cbn. rewrite Ck. destruct k as [|k]; [reflexivity|]. cbn.
    apply geb_false_iff. nia. }
  split.
  - intros Hfit fuel Hf.
    destruct (after (calls_needed T P)) as (w' & self' & a' & F & Tr & Len & Co).
    destruct (fetch_pages_stable_world srv T P Hst (calls_needed T P) w (init q)
                startRecord) as [Lr Tot].
    assert (Cn : completed_query self' = true).
    { rewrite Co. apply Nat.eqb_neq in Pos. rewrite Pos. cbn.
      apply geb_true_iff. nia. }
    exists w', self'. split.
    + rewrite (automatic_pagination_halts srv (calls_needed T P) stack w
                 (init q) startRecord P Hq Hfit early); [|now rewrite F|exact Hf].
      now rewrite F.
    + rewrite F in Lr, Tot. cbn [world_of session_of] in Lr, Tot.
      split; [exact Lr|]. split; [exact Len|]. split; [exact Tr|].
      split; [|exact Cn]. apply Tot; [left; reflexivity | lia].
  - intros Hfit fuel Hf.
    destruct (after (calls_that_fit stack))
      as (w' & self' & a' & F & Tr & Len & Co).
    destruct (fetch_pages_stable_world srv T P Hst (calls_that_fit stack) w
                (init q) startRecord) as [Lr _].
    pose proof (early _ Hfit) as Cf.
    rewrite F in Lr, Cf. cbn [world_of session_of halts] in Lr, Cf.
    rewrite (automatic_pagination_overflows srv (calls_that_fit stack) stack w
               (init q) startRecord P Hq eq_refl); [| |exact Hf].
    + rewrite F. cbn [overflow_of]. eexists _, _. split; [reflexivity|].
      split.
      * unfold overflowed, deeper. cbn [sent_at_overflow room].
        destruct (sent_at_overflow stack
                    (room stack - calls_that_fit stack)); cbn [requests].
        -- rewrite length_app, Lr. cbn. lia.
        -- rewrite Lr. lia.
      * auto.
    + intros k Hk. apply early. lia.
Qed.

Lemma automatic_pagination_on_stable_total_witness :
  ((calls_needed 25 10 <= calls_that_fit roomy)%nat ->
   forall fuel, (calls_needed 25 10 < fuel)%nat ->
   exists w' self',
     automatic_pagination fuel roomy (Samples.steady "25") Samples.fresh
       (init "date=2019") 1 10 = Some (w', self', Returned tt) /\
     length (requests w')
       = (length (requests Samples.fresh) + calls_needed 25 10)%nat /\
     length (containerOfXmlFiles self') = calls_needed 25 10 /\
     overall_query_objects_tracker self' = Z.of_nat (calls_needed 25 10) * 10 /\
     total_objects_of_query self' = Some 25 /\
     completed_query self' = true) /\
  ((calls_that_fit roomy < calls_needed 25 10)%nat ->
   forall fuel, (calls_that_fit roomy < fuel)%nat ->
   exists w' self',
     automatic_pagination fuel roomy (Samples.steady "25") Samples.fresh
       (init "date=2019") 1 10 = Some (w', self', Raised RecursionError) /\
     length (requests w') =
       (length (requests Samples.fresh) + calls_that_fit roomy
        + if sent_at_overflow roomy (room roomy - calls_that_fit roomy)
          then 1 else 0)%nat /\
     length (containerOfXmlFiles self') = calls_that_fit roomy /\
     overall_query_objects_tracker self'
       = Z.of_nat (calls_that_fit roomy) * 10 /\
     completed_query self' = false).
Proof.
  apply (automatic_pagination_on_stable_total roomy (Samples.steady "25")
           Samples.fresh "date=2019" 1 25 10).
  - vm_compute. lia.
  - lia.
  - lia.
  - intros history url. exists (Samples.results_page "25").
    exists (mkResponse 200 (Some (Samples.results_page "25"))).
    repeat split; reflexivity.
Defined.

(** ** The extractor: one item *)

(** [build_data] on a dict: either a key is missing and the first such
    key is reported, or the record is built field by field. *)
Lemma build_data_dict (d : gmap string Value) :
  (exists key,
     first_missing d = Some key /\
     Extractor.build_data (Dict d) = Raised (KeyError key)) \/
  (first_missing d = None /\
   exists data urn,
     Extractor.build_data (Dict d) = Returned data /\
     d !! "urn" = Some urn /\
     data !! "tipoDocumento" = d !! "tipoDocumento" /\
     data !! "facet-tipoDocumento" = d !! "facet-tipoDocumento" /\
     data !! "data" = d !! "dc:date" /\
     data !! "urn" = d !! "urn" /\
     data !! "url" = Some (Text (Extractor.BASE_URL +:+ format_value urn)) /\
     data !! "localidade" = d !! "localidade" /\
     data !! "facet-localidade" = d !! "facet-localidade" /\
     data !! "autoridade" = d !! "autoridade" /\
     data !! "facet-autoridade" = d !! "facet-autoridade" /\
     data !! "title" = d !! "dc:title" /\
     data !! "description" = d !! "dc:description" /\
     data !! "type" = d !! "dc:type" /\
     data !! "identifier" = d !! "dc:identifier" /\
     forall key, is_Some (data !! key) <-> In key record_keys).
Proof.
  unfold Extractor.build_data, first_missing, item_keys.
  cbn [subscript find].
  repeat (match goal with
          | |- context [d !! ?k] =>
              lazymatch k with
              | String _ _ => destruct (d !! k) eqn:?; cbn [mbind Outcome_bind find];
                              [| left; eexists; split; reflexivity]
              end
          end).
  right. split; [reflexivity|].
  eexists _, _. split; [reflexivity|]. split; [reflexivity|].
  repeat (split; [now simplify_map_eq|]).
  intros key. unfold record_keys. cbn [In].
  split.
  - intros [val Hv].
    repeat (match type of Hv with
            | <[?k := _]> _ !! key = Some _ =>
                destruct (decide (k = key)) as [<- | Hne];
                [tauto | rewrite lookup_insert_ne in Hv by exact Hne; clear Hne]
            end).
    rewrite lookup_empty in Hv. discriminate.
  - intros H.
    repeat (destruct H as [<- | H]; [simplify_map_eq; eauto|]).
    destruct H.
Qed.

Lemma first_missing_none (d : gmap string Value) :
  first_missing d = None <-> forall key, In key item_keys -> is_Some (d !! key).
Proof.
  unfold first_missing. split.
  - intros F key Hin.
    pose proof (find_none _ _ F key Hin) as H. cbn beta in H.
    destruct (d !! key); [eauto | discriminate].
  - intros H. destruct (find _ item_keys) as [key|] eqn:F; [|reflexivity].
    apply find_some in F. destruct F as [Hin Hm].
    destruct (H key Hin) as [v Hv]. rewrite Hv in Hm. discriminate.
Qed.

(** X12.  On a dict item the only failure of [__parseXml] is a
    [KeyError], and it names the first missing key in the order in which
    the record is written down: tipoDocumento, facet-tipoDocumento,
    dc:date, urn, localidade, facet-localidade, autoridade,
    facet-autoridade, dc:title, dc:description, dc:type, dc:identifier.
    Nothing is appended to the container in that case. *)
Theorem missing_key_is_reported
    (self : XmlToJson) (d : gmap string Value) (e : Exn) :
  snd (Extractor.parseXml self (Dict d)) = Raised e <->
  Extractor.parseXml self (Dict d) = (self, Raised e) /\
  exists key,
    e = KeyError key /\
    d !! key = None /\
    exists before after,
      item_keys = (before ++ key :: after)%list /\
      forall k, In k before -> is_Some (d !! k).
Proof.
  unfold Extractor.parseXml.
  destruct (build_data_dict d)
    as [(key & F & ->) | (F & data & urn & -> & _)]; cbn [snd].
  - split.
    + intros E. inversion E; subst. split; [reflexivity|].
      exists key. split; [reflexivity|].
      unfold first_missing in F.
      destruct (find_some _ _ F) as [Hin Hm].
      split; [destruct (d !! key); [discriminate | reflexivity]|].
      clear Hin Hm. revert F. generalize item_keys. intros l.
      induction l as [|k l IH]; cbn [find]; [discriminate|].
      destruct (d !! k) as [v|] eqn:Hk.
      * intros F. destruct (IH F) as (before & after & -> & P).
        exists (k :: before), after. split; [reflexivity|].
        intros k' [<- | H']; [eauto | auto].
      * intros F. inversion F; subst. exists [], l. split; [reflexivity|].
        intros k' [].
    + intros [E _]. inversion E. reflexivity.
  - split; [discriminate|]. intros [E _]. discriminate E.
Qed.

(** X13.  On a dict item [__parseXml] succeeds exactly when the twelve
    keys are all present.  The record then has exactly thirteen keys:
    the item's values under the same names, except that dc:date,
    dc:title, dc:description, dc:type and dc:identifier are stored as
    data, title, description, type and identifier, plus the url.  Any
    other key of the item is dropped. *)
Theorem record_fields (d : gmap string Value) :
  ((exists data, Extractor.build_data (Dict d) = Returned data) <->
   forall key, In key item_keys -> is_Some (d !! key)) /\
  forall data,
    Extractor.build_data (Dict d) = Returned data ->
    data !! "tipoDocumento" = d !! "tipoDocumento" /\
    data !! "facet-tipoDocumento" = d !! "facet-tipoDocumento" /\
    data !! "data" = d !! "dc:date" /\
    data !! "urn" = d !! "urn" /\
    data !! "localidade" = d !! "localidade" /\
    data !! "facet-localidade" = d !! "facet-localidade" /\
    data !! "autoridade" = d !! "autoridade" /\
    data !! "facet-autoridade" = d !! "facet-autoridade" /\
    data !! "title" = d !! "dc:title" /\
    data !! "description" = d !! "dc:description" /\
    data !! "type" = d !! "dc:type" /\
    data !! "identifier" = d !! "dc:identifier" /\
    (forall key, is_Some (data !! key) <-> In key record_keys).
Proof.
  destruct (build_data_dict d)
    as [(key & F & E) | (F & data & urn & E & Hu & f1 & f2 & f3 & f4 & f5
                           & f6 & f7 & f8 & f9 & f10 & f11 & f12 & f13 & K)].
  - split.
    + split.
      * intros [data E']. rewrite E in E'. discriminate.
      * intros H. apply first_missing_none in H. congruence.
    + intros data E'. rewrite E in E'. discriminate.
  - split.
    + split; [intros _; now apply first_missing_none | eauto].
    + intros data' E'. rewrite E in E'. inversion E'; subst.
      repeat (split; [assumption|]). exact K.
Qed.

(** ** The extractor: a whole document *)

Lemma stream_all_good :
  forall (items : list Item) (recs : list (gmap string Value))
         (self : XmlToJson),
    Forall2 (fun document data =>
               Extractor.build_data document = Returned data) items recs ->
    Extractor.stream self items =
      ({| xml := xml self;
          container_of_json := (container_of_json self ++ recs)%list |},
       Returned tt).
Proof.
  intros items recs self H. revert self.
  induction H as [|document data items recs Hd _ IH]; intros self.
  - cbn. rewrite app_nil_r. destruct self; reflexivity.
  - cbn [Extractor.stream]. unfold Extractor.parseXml. rewrite Hd.
    rewrite IH. cbn [xml container_of_json]. rewrite <- app_assoc. reflexivity.
Qed.

(** X14.  When every item can be read, [parseToJson] returns what the
    container held before followed by one record per item, in document
    order.  The container is not emptied between calls, so a second call
    on the same object returns every record of the document twice. *)
Theorem parseToJson_appends_in_order
    (self : XmlToJson) (recs : list (gmap string Value)) :
  Forall2 (fun document data =>
             Extractor.build_data document = Returned data) (xml self) recs ->
  snd (Extractor.parseToJson self)
    = Returned (container_of_json self ++ recs)%list /\
  snd (Extractor.parseToJson (fst (Extractor.parseToJson self)))
    = Returned (container_of_json self ++ recs ++ recs)%list.
Proof.
  intros H. unfold Extractor.parseToJson.
  rewrite (stream_all_good _ _ self H). cbn [fst snd xml container_of_json].
  split; [reflexivity|].
  rewrite (stream_all_good (xml self) recs
             {| xml := xml self;
                container_of_json := (container_of_json self ++ recs)%list |} H).
  cbn [fst snd xml container_of_json]. now rewrite <- app_assoc.
Qed.

Lemma parseToJson_appends_in_order_witness :
  snd (Extractor.parseToJson (mkXmlToJson [Samples.item] []))
    = Returned ([] ++ [sample_record])%list /\
  snd (Extractor.parseToJson
         (fst (Extractor.parseToJson (mkXmlToJson [Samples.item] []))))
    = Returned ([] ++ [sample_record] ++ [sample_record])%list.
Proof.
  apply (parseToJson_appends_in_order (mkXmlToJson [Samples.item] [])
           [sample_record]).
  constructor; [vm_compute; reflexivity | constructor].
Defined.

(** X15.  The first item that cannot be read ends the whole run with its
    exception: the records of the items before it stay in the object's
    container, the items after it are never looked at, and no list is
    returned.  An item that is not a dict ends it with [TypeError]. *)
Theorem parseToJson_stops_at_first_bad_item
    (self : XmlToJson) (good rest : list Item) (bad : Item)
    (recs : list (gmap string Value)) (e : Exn) :
  xml self = (good ++ bad :: rest)%list ->
  Forall2 (fun document data =>
             Extractor.build_data document = Returned data) good recs ->
  Extractor.build_data bad = Raised e ->
  Extractor.parseToJson self =
    ({| xml := xml self;
        container_of_json := (container_of_json self ++ recs)%list |},
     Raised e) /\
  (forall x, bad = Leaf x -> e = TypeError).
Proof.
  intros Hx Hg Hb. split.
  - unfold Extractor.parseToJson. rewrite Hx.
    assert (S : forall s,
              Extractor.stream s (good ++ bad :: rest) =
                ({| xml := xml s;
                    container_of_json := (container_of_json s ++ recs)%list |},
                 Raised e)).
    { clear Hx. induction Hg as [|document data items recs' Hd _ IH]; intros s.
      - cbn [app Extractor.stream]. unfold Extractor.parseXml. rewrite Hb.
        rewrite app_nil_r. destruct s; reflexivity.
      - cbn [app Extractor.stream]. unfold Extractor.parseXml. rewrite Hd.
        rewrite IH. cbn [xml container_of_json]. now rewrite <- app_assoc. }
    rewrite S. rewrite <- Hx. reflexivity.
  - intros x ->. cbn in Hb. congruence.
Qed.

Lemma parseToJson_stops_at_first_bad_item_witness :
  Extractor.parseToJson
    (mkXmlToJson [Samples.item; incomplete_item; Samples.item] []) =
    ({| xml := [Samples.item; incomplete_item; Samples.item];
        container_of_json := ([] ++ [sample_record])%list |},
     Raised (KeyError "urn")) /\
  (forall x, incomplete_item = Leaf x -> KeyError "urn" = TypeError).
Proof.
  apply (parseToJson_stops_at_first_bad_item
           (mkXmlToJson [Samples.item; incomplete_item; Samples.item] [])
           [Samples.item] [Samples.item] incomplete_item [sample_record]
           (KeyError "urn")).
  - reflexivity.
  - constructor; [vm_compute; reflexivity | constructor].
  - vm_compute. reflexivity.
Defined.

(** ** Saving the pages *)

Lemma append_length (s t : string) :
  String.length (s +:+ t) = (String.length s + String.length t)%nat.
Proof.
  induction s as [|c s IH]; [reflexivity|].
  rewrite append_cons. cbn [String.length]. now rewrite IH.
Qed.

Lemma append_inv_tail (s1 s2 t : string) :
  s1 +:+ t = s2 +:+ t -> s1 = s2.
Proof.
  revert s2. induction s1 as [|c s1 IH]; intros [|d s2] H.
  - reflexivity.
  - apply (f_equal String.length) in H.
    rewrite append_nil_l, append_cons in H. cbn [String.length] in H.
    rewrite append_length in H. lia.
  - apply (f_equal String.length) in H.
    rewrite append_nil_l, append_cons in H. cbn [String.length] in H.
    rewrite append_length in H. lia.
  - rewrite !append_cons in H. injection H as -> H. f_equal. now apply IH.
Qed.

(** Two indices never share a file name. *)
Lemma aggName_inj (filename : string) (i j : nat) :
  aggName i filename = aggName j filename -> i = j.
Proof.
  unfold aggName, str. intros H.
  apply append_inv_tail in H. apply (inj pretty) in H. lia.
Qed.

Section Saving.

Variable os : System.
Variables path filename : string.
Hypothesis writes_succeed :
  forall disk name, write_fault os disk path name = None.

(** The loop when no write is refused. *)
Lemma write_each_succeeds :
  forall (trees : list Element) (disk : Disk) (index : nat),
  exists disk',
    write_each os disk path filename index trees = (disk', Done) /\
    directories disk' = directories disk /\
    (forall i tree,
       trees !! i = Some tree ->
       files disk' !! (path, aggName (index + i) filename) = Some tree) /\
    (forall key,
       (forall i, (i < length trees)%nat ->
          key <> (path, aggName (index + i) filename)) ->
       files disk' !! key = files disk !! key).
Proof.
  induction trees as [|xmlfile rest IH]; intros disk index.
  - exists disk. cbn. repeat split; auto. intros i tree H. discriminate.
  - cbn [write_each]. unfold write. rewrite writes_succeed.
    destruct (IH {| directories := directories disk;
                    files := <[(path, aggName index filename) := xmlfile]>
                               (files disk) |} (S index))
      as (disk' & E & D & Hin & Hout).
    exists disk'. split; [exact E|]. split; [exact D|]. split.
    + intros [|i] tree Hi.
      * cbn in Hi. inversion Hi; subst. rewrite Nat.add_0_r.
        rewrite Hout.
        -- cbn. apply lookup_insert_eq.
        -- intros i _ Heq. inversion Heq as [Hn].
           apply aggName_inj in Hn. lia.
      * cbn in Hi. replace (index + S i)%nat with (S index + i)%nat by lia.
        now apply Hin.
    + intros key Hkey. rewrite Hout.
      * cbn. apply lookup_insert_ne. intros <-.
        apply (Hkey 0%nat); [cbn; lia | now rewrite Nat.add_0_r].
      * intros i Hi.
        replace (S index + i)%nat with (index + S i)%nat by lia.
        apply Hkey. cbn. lia.
Qed.

End Saving.

(** X16.  When the system refuses nothing, [saveResults] ends normally
    with the directory made sure of and every stored page in a file of
    its own: page number [i] (from 0) is the content of the file
    "[i]_[filename].xml" under [path], later pages never overwrite
    earlier ones, and no other file is touched. *)
Theorem saveResults_writes_every_page
    (os : System) (disk : Disk) (self : LexmlAcervo) (path filename : string) :
  mkdir_fault os disk path = None ->
  (forall d name, write_fault os d path name = None) ->
  exists disk',
    saveResults os disk self path filename = (disk', Done) /\
    directories disk' = {[path]} ∪ directories disk /\
    (forall i tree,
       containerOfXmlFiles self !! i = Some tree ->
       files disk' !! (path, aggName i filename) = Some tree) /\
    (forall key,
       (forall i, (i < length (containerOfXmlFiles self))%nat ->
          key <> (path, aggName i filename)) ->
       files disk' !! key = files disk !! key).
Proof.
  intros Hm Hw. unfold saveResults, mkdir. rewrite Hm.
  destruct (write_each_succeeds os path filename Hw (containerOfXmlFiles self)
              {| directories := {[path]} ∪ directories disk;
                 files := files disk |} 0)
    as (disk' & E & D & Hin & Hout).
  exists disk'. split; [exact E|]. split; [exact D|]. split.
  - intros i tree Hi. apply (Hin i tree Hi).
  - intros key Hkey. apply Hout. exact Hkey.
Qed.

Lemma saveResults_writes_every_page_witness :
  exists disk',
    saveResults willing blank two_pages "out" "lex" = (disk', Done) /\
    directories disk' = {["out"]} ∪ directories blank /\
    (forall i tree,
       containerOfXmlFiles two_pages !! i = Some tree ->
       files disk' !! ("out", aggName i "lex") = Some tree) /\
    (forall key,
       (forall i, (i < length (containerOfXmlFiles two_pages))%nat ->
          key <> ("out", aggName i "lex")) ->
       files disk' !! key = files blank !! key).
Proof.
  apply (saveResults_writes_every_page willing blank two_pages "out" "lex").
  - reflexivity.
  - intros d name. reflexivity.
Defined.

Lemma write_each_app (os : System) (path filename : string) :
  forall (front back : list Element) (disk : Disk) (index : nat),
    write_each os disk path filename index (front ++ back) =
    match write_each os disk path filename index front with
    | (disk', Done) =>
        write_each os disk' path filename (index + length front) back
    | failed => failed
    end.
Proof.
  induction front as [|xmlfile front IH]; intros back disk index.
  - cbn. now rewrite Nat.add_0_r.
  - cbn [app write_each length].
    destruct (write os disk path (aggName index filename) xmlfile)
      as [disk1 [|e]]; [|reflexivity].
    rewrite IH. replace (S index + length front)%nat
      with (index + S (length front))%nat by lia. reflexivity.
Qed.

(** X17.  [saveResults] stops at the first refusal.  A refused [mkdir]
    raises before any file is written and leaves the file system as it
    was.  If saving the pages before some page goes well and the write
    of that page is refused, the call raises, the files written so far
    stay, and the pages after it are not written.  In both cases a
    [FileNotFoundError] reaches the caller without its details, and any
    other error reaches it as it is. *)
Theorem saveResults_stops_at_first_refusal
    (os : System) (disk : Disk) (self : LexmlAcervo)
    (path filename : string) :
  (forall e,
     mkdir_fault os disk path = Some e ->
     saveResults os disk self path filename = (disk, Failed (reraise e))) /\
  (forall (shorter : LexmlAcervo) (before after : list Element)
          (tree : Element) (disk1 : Disk) (e : IOExn),
     containerOfXmlFiles shorter = before ->
     containerOfXmlFiles self = (before ++ tree :: after)%list ->
     saveResults os disk shorter path filename = (disk1, Done) ->
     write_fault os disk1 path (aggName (length before) filename) = Some e ->
     saveResults os disk self path filename = (disk1, Failed (reraise e))) /\
  (forall details,
     reraise (FileNotFoundError details) = FileNotFoundError None) /\
  (forall kind, reraise (OSError kind) = OSError kind).
Proof.
  split; [|split; [|split]].
  - intros e Hm. unfold saveResults, mkdir. now rewrite Hm.
  - intros shorter before after tree disk1 e Hs Hc Hsave Hf.
    unfold saveResults in *. rewrite Hs in Hsave. rewrite Hc.
    destruct (mkdir os disk path) as [disk0 [|e0]]; [|discriminate].
    rewrite write_each_app, Hsave. cbn [write_each]. unfold write.
    cbn [Nat.add]. now rewrite Hf.
  - reflexivity.
  - reflexivity.
Qed.

(** Both refusals met: a refused [mkdir] on [locked], a refused second
    write on [cramped], a refused first write on [readonly]. *)
Lemma saveResults_stops_at_first_refusal_witness :
  saveResults locked blank two_pages "out" "lex"
    = (blank, Failed (FileNotFoundError None)) /\
  saveResults cramped blank two_pages "out" "lex"
    = (fst (saveResults cramped blank
              (addToContainerOfXmlFiles (init "date=2019")
                 (Samples.results_page "25")) "out" "lex"),
       Failed (FileNotFoundError None)) /\
  saveResults readonly blank two_pages "out" "lex"
    = (fst (saveResults readonly blank (init "date=2019") "out" "lex"),
       Failed (OSError "PermissionError")).
Proof.
  split; [|split].
  - apply (proj1 (saveResults_stops_at_first_refusal locked blank two_pages
                    "out" "lex")
             (FileNotFoundError (Some "No such file or directory"))).
    reflexivity.
  - apply (proj1 (proj2 (saveResults_stops_at_first_refusal cramped blank
                           two_pages "out" "lex"))
             (addToContainerOfXmlFiles (init "date=2019")
                (Samples.results_page "25"))
             [Samples.results_page "25"] [] (Samples.results_page "5")
             (fst (saveResults cramped blank
                     (addToContainerOfXmlFiles (init "date=2019")
                        (Samples.results_page "25")) "out" "lex"))
             (FileNotFoundError (Some "No such file or directory")));
      [reflexivity | reflexivity | reflexivity | vm_compute; reflexivity].
  - apply (proj1 (proj2 (saveResults_stops_at_first_refusal readonly blank
                           two_pages "out" "lex"))
             (init "date=2019") []
             [Samples.results_page "5"] (Samples.results_page "25")
             (fst (saveResults readonly blank (init "date=2019") "out" "lex"))
             (OSError "PermissionError"));
      reflexivity.
Defined.

(** X18.  Saving is repeatable: when the system refuses nothing, saving
    the same session again to the same place leaves the file system as
    the first save left it. *)
Theorem saveResults_twice_is_once
    (os : System) (disk : Disk) (self : LexmlAcervo) (path filename : string) :
  (forall d, mkdir_fault os d path = None) ->
  (forall d name, write_fault os d path name = None) ->
  saveResults os (fst (saveResults os disk self path filename)) self
    path filename
  = saveResults os disk self path filename.
Proof.
  intros Hm Hw.
  destruct (saveResults_writes_every_page os disk self path filename
              (Hm disk) Hw) as (d1 & E1 & D1 & In1 & Out1).
  rewrite E1. cbn [fst].
  destruct (saveResults_writes_every_page os d1 self path filename
              (Hm d1) Hw) as (d2 & E2 & D2 & In2 & Out2).
  rewrite E2. f_equal.
  destruct d1 as [dirs1 files1], d2 as [dirs2 files2].
  cbn [directories files] in *. f_equal.
  - rewrite D2, D1, (assoc_L (∪)), (idemp_L (∪)). reflexivity.
  - apply map_eq. intros key.
    destruct (decide (key ∈ (fun i => (path, aggName i filename))
                        <$> seq 0 (length (containerOfXmlFiles self))))
      as [Hin | Hout].
    + apply list_elem_of_fmap in Hin. destruct Hin as (i & -> & Hi).
      apply elem_of_seq in Hi.
      destruct (lookup_lt_is_Some_2 (containerOfXmlFiles self) i ltac:(lia))
        as [tree Ht].
      now rewrite (In1 i tree Ht), (In2 i tree Ht).
    + apply Out2. intros i Hi ->. apply Hout.
      apply list_elem_of_fmap. exists i. split; [reflexivity|].
      apply elem_of_seq. lia.
Qed.

Lemma saveResults_twice_is_once_witness :
  saveResults willing (fst (saveResults willing blank two_pages "out" "lex"))
    two_pages "out" "lex"
  = saveResults willing blank two_pages "out" "lex".
Proof.
  apply (saveResults_twice_is_once willing blank two_pages "out" "lex").
  - intros d. reflexivity.
  - intros d name. reflexivity.
Defined.
